(** * Inventory + Analytics API (SQLite): ledger and analytics, verified

    A shallow embedding of [main.py] (FastAPI handlers over sqlite3) with
    the row types of [models.py] and the payload schemas of
    [schemas_sql.py].

    Modelling conventions.
    - A table with [INTEGER PRIMARY KEY AUTOINCREMENT] is a finite map from
      rowid to row ([gmap Z row]); the [sqlite_sequence] counters are part of
      the database, and a fresh rowid is one more than the largest rowid the
      table holds or ever handed out.
    - Python [int] and SQLite [INTEGER] are [Z]; [REAL] columns hold exact
      rationals ([Q]), rounding is not modelled.
    - [created_at] is the clock reading in microseconds ([Z]); ISO-8601 text
      of fixed width compares like the instant it denotes.  The clock
      ([datetime.utcnow()]) is an argument of the handlers that read it.
    - A handler returns its response together with the committed database.
      An exception leaves the connection without [commit], so the database
      is the one the handler started from.
    - No handler issues [PRAGMA foreign_keys=ON]; the [FOREIGN KEY] clauses
      of [init_db] are therefore not enforced. *)

From Stdlib Require Import ZArith QArith Lia Ascii.
From stdpp Require Import gmap strings list fin_maps sorting.

Local Open Scope Z_scope.

(** ** Rows (models.py / init_db) *)

Module Supplier.
Record t := mk {
  name : string;
  email : option string;
  phone : option string;
  address : option string }.
End Supplier.

Module Category.
Record t := mk { name : string }.
End Category.

Module Product.
Record t := mk {
  sku : string;
  name : string;
  description : option string;
  price : Q;
  cost : Q;
  quantity : Z;
  reorder_level : Z;
  is_active : Z;
  category_id : option Z;
  supplier_id : option Z }.

Definition set_quantity (q : Z) (p : t) : t :=
  mk (sku p) (name p) (description p) (price p) (cost p) q
     (reorder_level p) (is_active p) (category_id p) (supplier_id p).
End Product.

Module Movement.
Record t := mk {
  product_id : Z;
  change : Z;
  reason : string;
  reference : option string;
  created_at : Z }.
End Movement.

(** ** Payloads and responses (schemas_sql.py) *)

Module ProductCreate.
Record t := mk {
  sku : string;
  name : string;
  description : option string;
  price : Q;
  cost : Q;
  quantity : Z;
  reorder_level : Z;
  is_active : bool;
  category_id : option Z;
  supplier_id : option Z }.
End ProductCreate.

(** [model_dump(exclude_unset=True)]: a field is absent ([None]), present
    with JSON null ([Some None]) or present with a value. *)
Module ProductUpdate.
Record t := mk {
  name : option (option string);
  description : option (option string);
  price : option (option Q);
  cost : option (option Q);
  quantity : option (option Z);
  reorder_level : option (option Z);
  is_active : option (option bool);
  category_id : option (option Z);
  supplier_id : option (option Z) }.

Definition unset : t := mk None None None None None None None None None.

(** [not data]: no field was sent. *)
Definition is_empty (u : t) : bool :=
  match u with
  | mk None None None None None None None None None => true
  | _ => false
  end.
End ProductUpdate.

Module ProductRead.
Record t := mk {
  id : Z;
  sku : string;
  name : string;
  description : option string;
  price : Q;
  cost : Q;
  quantity : Z;
  reorder_level : Z;
  is_active : bool;
  category_id : option Z;
  supplier_id : option Z }.
End ProductRead.

Module MovementCreate.
Record t := mk {
  product_id : Z;
  change : Z;
  reason : string;
  reference : option string }.
End MovementCreate.

Module MovementRead.
Record t := mk {
  id : Z;
  product_id : Z;
  change : Z;
  reason : string;
  reference : option string;
  created_at : Z }.
End MovementRead.

Module SupplierRead.
Record t := mk { id : Z; row : Supplier.t }.
End SupplierRead.

Module CategoryRead.
Record t := mk { id : Z; row : Category.t }.
End CategoryRead.

(** ** The database *)

Record DB := mkDB {
  suppliers : gmap Z Supplier.t;
  categories : gmap Z Category.t;
  products : gmap Z Product.t;
  inventory_movements : gmap Z Movement.t;
  seq_suppliers : Z;
  seq_categories : Z;
  seq_products : Z;
  seq_movements : Z }.

(** [init_db] on a fresh file. *)
Definition init_db : DB := mkDB ∅ ∅ ∅ ∅ 0 0 0 0.

(** ** Errors *)

Inductive Error :=
| HTTPException (status_code : Z) (detail : string)
| IntegrityError (message : string)
| TypeError (message : string).

Inductive Response (A : Type) :=
| Ok (body : A)
| Raise (e : Error).
Arguments Ok {A} body.
Arguments Raise {A} e.

(** ** SQLite helpers *)

Section rowid.
Context {A : Type}.

Definition max_rowid (t : gmap Z A) : Z :=
  map_fold (fun k _ acc => Z.max k acc) 0 t.

(** AUTOINCREMENT: larger than every rowid present and every rowid ever
    issued. *)
Definition next_rowid (seq : Z) (t : gmap Z A) : Z :=
  Z.max seq (max_rowid t) + 1.

(** [SELECT ... FROM t] as a list of (rowid, row). *)
Definition rows (t : gmap Z A) : list (Z * A) := map_to_list t.

(** [fetchone()] of a [SELECT ... WHERE cond]. *)
Definition fetchone (cond : Z * A -> bool) (t : gmap Z A) : option (Z * A) :=
  List.find cond (rows t).
End rowid.

(** [SUM(e)] over integers: NULL on no rows. *)
Definition sql_sum_int (l : list Z) : option Z :=
  match l with
  | [] => None
  | _ => Some (foldr Z.add 0 l)
  end.

(** [SUM(e)] over reals. *)
Definition sql_sum_real (l : list Q) : option Q :=
  match l with
  | [] => None
  | _ => Some (foldr Qplus (0 # 1)%Q l)
  end.

(** [LIMIT n]: a negative [n] puts no bound on the result. *)
Definition sql_limit {A} (n : Z) (l : list A) : list A :=
  if n <? 0 then l else take (Z.to_nat n) l.

(** Python: [int(x or 0)] and [float(x or 0)] on a possibly NULL column. *)
Definition int_or_0 (x : option Z) : Z :=
  match x with
  | None => 0
  | Some v => if v =? 0 then 0 else v
  end.

Definition float_or_0 (x : option Q) : Q :=
  match x with
  | None => (0 # 1)%Q
  | Some v => if Qeq_bool v (0 # 1)%Q then (0 # 1)%Q else v
  end.

(** Python truthiness of an int, as in [1 if v else 0] and [bool(v)]. *)
Definition truthy (v : Z) : bool := negb (v =? 0).

(** ** Handlers *)

Definition supplier_read (kv : Z * Supplier.t) : SupplierRead.t :=
  SupplierRead.mk kv.1 kv.2.

Definition category_read (kv : Z * Category.t) : CategoryRead.t :=
  CategoryRead.mk kv.1 kv.2.

(** [row_to_dict] followed by [d["is_active"] = bool(d["is_active"])]. *)
Definition product_read (kv : Z * Product.t) : ProductRead.t :=
  let p := kv.2 in
  ProductRead.mk kv.1 (Product.sku p) (Product.name p) (Product.description p)
    (Product.price p) (Product.cost p) (Product.quantity p)
    (Product.reorder_level p) (truthy (Product.is_active p))
    (Product.category_id p) (Product.supplier_id p).

(** [row_to_dict]; [created_at] is parsed back with [fromisoformat]. *)
Definition movement_read (kv : Z * Movement.t) : MovementRead.t :=
  let m := kv.2 in
  MovementRead.mk kv.1 (Movement.product_id m) (Movement.change m)
    (Movement.reason m) (Movement.reference m) (Movement.created_at m).

(** [row_to_dict(None)] *)
Definition no_row : Error := TypeError "NoneType has no keys".

Definition create_supplier (payload : Supplier.t) (db : DB)
  : Response SupplierRead.t * DB :=
  let supplier_id := next_rowid (seq_suppliers db) (suppliers db) in
  let db' := mkDB (<[supplier_id := payload]> (suppliers db)) (categories db)
                  (products db) (inventory_movements db)
                  supplier_id (seq_categories db) (seq_products db)
                  (seq_movements db) in
  match suppliers db' !! supplier_id with
  | Some row => (Ok (supplier_read (supplier_id, row)), db')
  | None => (Raise no_row, db')
  end.

Definition create_category (payload : Category.t) (db : DB)
  : Response CategoryRead.t * DB :=
  let by_name (kv : Z * Category.t) :=
    bool_decide (Category.name kv.2 = Category.name payload) in
  match fetchone by_name (categories db) with
  | Some _ =>
      (* sqlite3.IntegrityError: UNIQUE constraint failed *)
      (Raise (HTTPException 400 "Category name already exists"), db)
  | None =>
      let category_id := next_rowid (seq_categories db) (categories db) in
      let db' := mkDB (suppliers db) (<[category_id := payload]> (categories db))
                      (products db) (inventory_movements db)
                      (seq_suppliers db) category_id (seq_products db)
                      (seq_movements db) in
      match fetchone by_name (categories db') with
      | Some row => (Ok (category_read row), db')
      | None => (Raise no_row, db')
      end
  end.

(** The [VALUES(?,?,?,?,?,?,?,?,?,?)] tuple of [create_product]. *)
Definition product_values (payload : ProductCreate.t) : Product.t :=
  Product.mk (ProductCreate.sku payload) (ProductCreate.name payload)
    (ProductCreate.description payload) (ProductCreate.price payload)
    (ProductCreate.cost payload) (ProductCreate.quantity payload)
    (ProductCreate.reorder_level payload)
    (if ProductCreate.is_active payload then 1 else 0)
    (ProductCreate.category_id payload)
    (ProductCreate.supplier_id payload).

Definition create_product (payload : ProductCreate.t) (db : DB)
  : Response ProductRead.t * DB :=
  let by_sku (kv : Z * Product.t) :=
    bool_decide (Product.sku kv.2 = ProductCreate.sku payload) in
  match fetchone by_sku (products db) with
  | Some _ => (Raise (HTTPException 400 "SKU already exists"), db)
  | None =>
      let row := product_values payload in
      let product_id := next_rowid (seq_products db) (products db) in
      let db' := mkDB (suppliers db) (categories db)
                      (<[product_id := row]> (products db))
                      (inventory_movements db)
                      (seq_suppliers db) (seq_categories db) product_id
                      (seq_movements db) in
      match fetchone by_sku (products db') with
      | Some r => (Ok (product_read r), db')
      | None => (Raise no_row, db')
      end
  end.

Definition get_product (product_id : Z) (db : DB) : Response ProductRead.t :=
  match products db !! product_id with
  | None => Raise (HTTPException 404 "Product not found")
  | Some row => Ok (product_read (product_id, row))
  end.

(** One [k=?] of the [UPDATE ... SET] list against a NOT NULL column:
    [None] is the constraint failure. *)
Definition set_not_null {A} (v : option (option A)) (old : A) : option A :=
  match v with
  | None => Some old
  | Some None => None
  | Some (Some x) => Some x
  end.

Definition set_nullable {A} (v : option (option A)) (old : option A) : option A :=
  match v with
  | None => old
  | Some x => x
  end.

(** [if k == "is_active": v = 1 if v else 0] *)
Definition set_is_active (v : option (option bool)) (old : Z) : Z :=
  match v with
  | None => old
  | Some None => 0
  | Some (Some b) => if b then 1 else 0
  end.

Definition update_row (u : ProductUpdate.t) (p : Product.t) : option Product.t :=
  n ← set_not_null (ProductUpdate.name u) (Product.name p);
  pr ← set_not_null (ProductUpdate.price u) (Product.price p);
  c ← set_not_null (ProductUpdate.cost u) (Product.cost p);
  q ← set_not_null (ProductUpdate.quantity u) (Product.quantity p);
  r ← set_not_null (ProductUpdate.reorder_level u) (Product.reorder_level p);
  Some (Product.mk (Product.sku p) n
          (set_nullable (ProductUpdate.description u) (Product.description p))
          pr c q r
          (set_is_active (ProductUpdate.is_active u) (Product.is_active p))
          (set_nullable (ProductUpdate.category_id u) (Product.category_id p))
          (set_nullable (ProductUpdate.supplier_id u) (Product.supplier_id p))).

Definition update_product (product_id : Z) (payload : ProductUpdate.t) (db : DB)
  : Response ProductRead.t * DB :=
  match products db !! product_id with
  | None => (Raise (HTTPException 404 "Product not found"), db)
  | Some row =>
      if ProductUpdate.is_empty payload then
        (Ok (product_read (product_id, row)), db)
      else
      match update_row payload row with
      | None => (Raise (IntegrityError "NOT NULL constraint failed"), db)
      | Some row' =>
          let db' := mkDB (suppliers db) (categories db)
                          (<[product_id := row']> (products db))
                          (inventory_movements db)
                          (seq_suppliers db) (seq_categories db)
                          (seq_products db) (seq_movements db) in
          match products db' !! product_id with
          | Some r => (Ok (product_read (product_id, r)), db')
          | None => (Raise no_row, db')
          end
      end
  end.

Definition delete_product (product_id : Z) (db : DB) : Response string * DB :=
  match products db !! product_id with
  | None => (Raise (HTTPException 404 "Product not found"), db)
  | Some _ =>
      (Ok "deleted",
       mkDB (suppliers db) (categories db) (delete product_id (products db))
            (inventory_movements db)
            (seq_suppliers db) (seq_categories db) (seq_products db)
            (seq_movements db))
  end.

(** [POST /movements]; [now] is [datetime.utcnow()]. *)
Definition create_movement (now : Z) (payload : MovementCreate.t) (db : DB)
  : Response MovementRead.t * DB :=
  match products db !! MovementCreate.product_id payload with
  | None => (Raise (HTTPException 404 "Product not found"), db)
  | Some prod =>
      let new_qty :=
        int_or_0 (Some (Product.quantity prod)) + MovementCreate.change payload in
      if new_qty <? 0 then
        (Raise (HTTPException 400 "Insufficient stock"), db)
      else
        let products' :=
          <[MovementCreate.product_id payload := Product.set_quantity new_qty prod]>
            (products db) in
        let move_id := next_rowid (seq_movements db) (inventory_movements db) in
        let row :=
          Movement.mk (MovementCreate.product_id payload)
            (MovementCreate.change payload) (MovementCreate.reason payload)
            (MovementCreate.reference payload) now in
        let db' := mkDB (suppliers db) (categories db) products'
                        (<[move_id := row]> (inventory_movements db))
                        (seq_suppliers db) (seq_categories db) (seq_products db)
                        move_id in
        match inventory_movements db' !! move_id with
        | Some r => (Ok (movement_read (move_id, r)), db')
        | None => (Raise no_row, db')
        end
  end.

(** ** Analytics *)

Module Valuation.
Record t := mk {
  total_quantity : Z;
  inventory_cost_value : Q;
  inventory_retail_value : Q }.
End Valuation.

Definition stock_valuation (db : DB) : Valuation.t :=
  let ps := (rows (products db)).*2 in
  let cost_value :=
    sql_sum_real
      (map (fun p => (inject_Z (Product.quantity p) * Product.cost p)%Q) ps) in
  let retail_value :=
    sql_sum_real
      (map (fun p => (inject_Z (Product.quantity p) * Product.price p)%Q) ps) in
  let total_qty := sql_sum_int (map Product.quantity ps) in
  Valuation.mk (int_or_0 total_qty) (float_or_0 cost_value)
    (float_or_0 retail_value).

(** [ORDER BY quantity ASC] *)
Definition quantity_asc (a b : Z * Product.t) : Prop :=
  Product.quantity a.2 <= Product.quantity b.2.

#[global] Instance quantity_asc_dec a b : Decision (quantity_asc a b).
Proof. unfold quantity_asc. apply _. Defined.

Definition low_stock (threshold : option Z) (db : DB) : list ProductRead.t :=
  let selected :=
    match threshold with
    | Some t =>
        filter (fun kv : Z * Product.t =>
                  Product.is_active kv.2 = 1 /\ Product.quantity kv.2 <= t)
               (rows (products db))
    | None =>
        filter (fun kv : Z * Product.t =>
                  Product.is_active kv.2 = 1 /\
                  Product.quantity kv.2 <= Product.reorder_level kv.2)
               (rows (products db))
    end in
  product_read <$> merge_sort quantity_asc selected.

Module TopMover.
Record t := mk {
  product_id : Z;
  sku : string;
  name : string;
  moved : Z }.
End TopMover.

(** [timedelta(days=days)] in microseconds. *)
Definition timedelta_days (days : Z) : Z := days * 86400000000.

(** [SELECT product_id, SUM(ABS(change)) ... GROUP BY product_id] *)
Definition group_moved (ms : list Movement.t) : gmap Z Z :=
  foldr (fun m acc =>
           <[Movement.product_id m :=
               Z.abs (Movement.change m)
               + default 0 (acc !! Movement.product_id m)]> acc)
        ∅ ms.

(** [ORDER BY moved DESC] *)
Definition moved_desc (a b : Z * Z) : Prop := b.2 <= a.2.

#[global] Instance moved_desc_dec a b : Decision (moved_desc a b).
Proof. unfold moved_desc. apply _. Defined.

(** The movements of the window: [WHERE created_at >= since]. *)
Definition in_window (since : Z) (db : DB) : list Movement.t :=
  filter (fun m => since <= Movement.created_at m)
         (rows (inventory_movements db)).*2.

(** The grouped, ordered and limited query of [top_movers]. *)
Definition top_groups (now days limit : Z) (db : DB) : list (Z * Z) :=
  let since := now - timedelta_days days in
  sql_limit limit
    (merge_sort moved_desc (map_to_list (group_moved (in_window since db)))).

(** The body of the loop over the fetched groups: a group whose product
    row is gone appends nothing. *)
Definition annotate (db : DB) (r : Z * Z) : option TopMover.t :=
  match products db !! r.1 with
  | Some product =>
      Some (TopMover.mk r.1 (Product.sku product) (Product.name product)
              (int_or_0 (Some r.2)))
  | None => None
  end.

Definition top_movers (now days limit : Z) (db : DB) : list TopMover.t :=
  omap (annotate db) (top_groups now days limit db).

(** ** The API as a transition system *)

Inductive Request :=
| GET_root
| POST_suppliers (payload : Supplier.t)
| GET_suppliers
| POST_categories (payload : Category.t)
| GET_categories
| POST_products (payload : ProductCreate.t)
| GET_products (q : option string) (category_id supplier_id : option Z)
    (only_active : bool)
| GET_product (product_id : Z)
| PATCH_product (product_id : Z) (payload : ProductUpdate.t)
| DELETE_product (product_id : Z)
| POST_movements (payload : MovementCreate.t)
| GET_movements (product_id days : option Z)
| GET_stock_valuation
| GET_low_stock (threshold : option Z)
| GET_top_movers (days limit : Z)
| GET_hello
| GET_test.

(** The database a request leaves behind; [now] is the clock at the time
    of the request.  The GET handlers only execute SELECT statements. *)
Definition handle (now : Z) (r : Request) (db : DB) : DB :=
  match r with
  | POST_suppliers payload => (create_supplier payload db).2
  | POST_categories payload => (create_category payload db).2
  | POST_products payload => (create_product payload db).2
  | PATCH_product product_id payload => (update_product product_id payload db).2
  | DELETE_product product_id => (delete_product product_id db).2
  | POST_movements payload => (create_movement now payload db).2
  | _ => db
  end.

(** What a request can do to the database, one constructor per kind of
    committed write. *)
Inductive effect (now : Z) : Request -> DB -> DB -> Prop :=
| effect_none r db :
    effect now r db db
| effect_supplier payload db :
    effect now (POST_suppliers payload) db
      (mkDB (<[next_rowid (seq_suppliers db) (suppliers db) := payload]>
               (suppliers db))
            (categories db) (products db) (inventory_movements db)
            (next_rowid (seq_suppliers db) (suppliers db))
            (seq_categories db) (seq_products db) (seq_movements db))
| effect_category payload db :
    effect now (POST_categories payload) db
      (mkDB (suppliers db)
            (<[next_rowid (seq_categories db) (categories db) := payload]>
               (categories db))
            (products db) (inventory_movements db)
            (seq_suppliers db)
            (next_rowid (seq_categories db) (categories db))
            (seq_products db) (seq_movements db))
| effect_product payload db :
    effect now (POST_products payload) db
      (mkDB (suppliers db) (categories db)
            (<[next_rowid (seq_products db) (products db) :=
                 product_values payload]> (products db))
            (inventory_movements db)
            (seq_suppliers db) (seq_categories db)
            (next_rowid (seq_products db) (products db))
            (seq_movements db))
| effect_update product_id payload row row' db :
    products db !! product_id = Some row ->
    update_row payload row = Some row' ->
    effect now (PATCH_product product_id payload) db
      (mkDB (suppliers db) (categories db)
            (<[product_id := row']> (products db))
            (inventory_movements db)
            (seq_suppliers db) (seq_categories db) (seq_products db)
            (seq_movements db))
| effect_delete product_id row db :
    products db !! product_id = Some row ->
    effect now (DELETE_product product_id) db
      (mkDB (suppliers db) (categories db)
            (delete product_id (products db))
            (inventory_movements db)
            (seq_suppliers db) (seq_categories db) (seq_products db)
            (seq_movements db))
| effect_movement payload prod db :
    products db !! MovementCreate.product_id payload = Some prod ->
    0 <= Product.quantity prod + MovementCreate.change payload ->
    effect now (POST_movements payload) db
      (mkDB (suppliers db) (categories db)
            (<[MovementCreate.product_id payload :=
                 Product.set_quantity
                   (Product.quantity prod + MovementCreate.change payload)
                   prod]> (products db))
            (<[next_rowid (seq_movements db) (inventory_movements db) :=
                 Movement.mk (MovementCreate.product_id payload)
                   (MovementCreate.change payload)
                   (MovementCreate.reason payload)
                   (MovementCreate.reference payload) now]>
               (inventory_movements db))
            (seq_suppliers db) (seq_categories db) (seq_products db)
            (next_rowid (seq_movements db) (inventory_movements db))).

(** A history of requests, each with its clock reading, oldest first. *)
Fixpoint run (h : list (Z * Request)) (db : DB) : DB :=
  match h with
  | [] => db
  | (now, r) :: h' => run h' (handle now r db)
  end.

(** A sequence of [record_movement] calls that all succeed. *)
Fixpoint record_all (calls : list (Z * MovementCreate.t)) (db : DB) : option DB :=
  match calls with
  | [] => Some db
  | (now, payload) :: calls' =>
      match create_movement now payload db with
      | (Ok _, db') => record_all calls' db'
      | (Raise _, _) => None
      end
  end.

(** [sum(m.change for m in movements if m.product_id == product_id)] *)
Definition sum_changes (product_id : Z) (t : gmap Z Movement.t) : Z :=
  map_fold (fun _ m acc =>
              if decide (Movement.product_id m = product_id)
              then Movement.change m + acc else acc)
           0 t.

Definition movement_sum (product_id : Z) (db : DB) : Z :=
  sum_changes product_id (inventory_movements db).

(** Rowids are handed out in order: no product row and no movement row
    refers to a product id that [sqlite_sequence] has not reached. *)
Record consistent (db : DB) : Prop := mk_consistent {
  products_issued :
    forall k p, products db !! k = Some p -> k <= seq_products db;
  movements_issued :
    forall i m, inventory_movements db !! i = Some m ->
                Movement.product_id m <= seq_products db }.

(** ** Sample data *)

Module Sample.
Definition widget : ProductCreate.t :=
  ProductCreate.mk "W-1" "widget" None (5 # 1)%Q (3 # 1)%Q 10 4 true None None.

Definition widget_row : Product.t :=
  Product.mk "W-1" "widget" None (5 # 1)%Q (3 # 1)%Q 10 4 1 None None.

(** A store holding the widget with ten on hand and no movement. *)
Definition db_widget : DB := (create_product widget init_db).2.

Definition sale : MovementCreate.t := MovementCreate.mk 1 (-3) "sale" None.
Definition oversale : MovementCreate.t := MovementCreate.mk 1 (-11) "sale" None.
Definition nothing : MovementCreate.t :=
  MovementCreate.mk 1 0 "adjustment" None.

(** A product entered with a negative quantity on hand. *)
Definition backorder : ProductCreate.t :=
  ProductCreate.mk "B-1" "bolt" None (1 # 1)%Q (1 # 1)%Q (-5) 0 true None None.

(** A partial update that sets only the quantity. *)
Definition set_stock (q : Z) : ProductUpdate.t :=
  ProductUpdate.mk None None None None (Some (Some q)) None None None None.

(** The widget store after one sale. *)
Definition db_sold : DB := (create_movement 1000 sale db_widget).2.

Definition bolt : ProductCreate.t :=
  ProductCreate.mk "B-2" "bolt" None (1 # 1)%Q (1 # 1)%Q 0 0 true None None.

(** The widget moved by six and was then deleted; the bolt moved by one. *)
Definition db_orphan : DB :=
  run [(0, POST_products widget);
       (1000, POST_movements (MovementCreate.mk 1 6 "purchase" None));
       (2000, POST_products bolt);
       (3000, POST_movements (MovementCreate.mk 2 1 "purchase" None));
       (4000, DELETE_product 1)] init_db.
End Sample.

(** ** Predicates of the claims *)

(** Every product has a non-negative quantity on hand. *)
Definition quantities_nonneg (db : DB) : Prop :=
  forall k p, products db !! k = Some p -> 0 <= Product.quantity p.

(** The quantity a catalog request asks to store, if it names one, is not
    negative. *)
Definition catalog_quantity_nonneg (r : Request) : Prop :=
  match r with
  | POST_products payload => 0 <= ProductCreate.quantity payload
  | PATCH_product _ payload =>
      match ProductUpdate.quantity payload with
      | Some (Some q) => 0 <= q
      | _ => True
      end
  | _ => True
  end.

(** The sums of the valuation, written over the product table itself. *)
Definition total_on_hand (db : DB) : Z :=
  map_fold (fun _ p acc => Product.quantity p + acc) 0 (products db).



(** An active product at or below the bar: the given threshold, or else
    its own reorder level. *)
Definition is_low (threshold : option Z) (p : Product.t) : Prop :=
  Product.is_active p = 1 /\
  Product.quantity p <= match threshold with
                        | Some t => t
                        | None => Product.reorder_level p
                        end.

(** [sum(abs(m.change))] over the movements of one product in a list. *)
Definition moved_in (product_id : Z) (ms : list Movement.t) : Z :=
  foldr Z.add 0
    (Z.abs ∘ Movement.change
       <$> filter (fun m => Movement.product_id m = product_id) ms).

(** ** Database location *)

(** [s[n:]] *)
Fixpoint skip (n : nat) (s : string) : string :=
  match n, s with
  | O, _ => s
  | S n', String _ s' => skip n' s'
  | S _, EmptyString => EmptyString
  end.

(** [s.replace(old, new, 1)]: the leftmost occurrence only. *)
Fixpoint replace_first (old new s : string) : string :=
  if String.prefix old s then new +:+ skip (String.length old) s
  else match s with
       | EmptyString => EmptyString
       | String c s' => String c (replace_first old new s')
       end.

Definition _sqlite_path (url : string) : string :=
  if String.prefix "sqlite:///" url
  then replace_first "sqlite:///" "" url
  else url.

(** ** Listing handlers *)

(** [ORDER BY id DESC] *)
Definition id_desc {A} (a b : Z * A) : Prop := b.1 <= a.1.

#[global] Instance id_desc_dec {A} (a b : Z * A) : Decision (id_desc a b).
Proof. unfold id_desc. apply _. Defined.

Definition list_suppliers (db : DB) : list SupplierRead.t :=
  supplier_read <$> merge_sort id_desc (rows (suppliers db)).

(** [ORDER BY name]: TEXT under the BINARY collation compares byte by
    byte. *)
Definition name_asc (a b : Z * Category.t) : Prop :=
  String.leb (Category.name a.2) (Category.name b.2) = true.

#[global] Instance name_asc_dec a b : Decision (name_asc a b).
Proof. unfold name_asc. apply _. Defined.

Definition list_categories (db : DB) : list CategoryRead.t :=
  category_read <$> merge_sort name_asc (rows (categories db)).

(** SQLite folds the 26 ASCII capitals when it compares for LIKE. *)
Definition lower (c : Ascii.ascii) : Ascii.ascii :=
  let n := Ascii.N_of_ascii c in
  if ((65 <=? n) && (n <=? 90))%N then Ascii.ascii_of_N (n + 32) else c.

(** [text LIKE pat]: [%] stands for any run of characters, [_] for any one
    character, every other character for itself up to ASCII case.  The
    characters of a text are the [ascii] of its [string]. *)
Fixpoint like (pat text : string) : bool :=
  match pat with
  | EmptyString =>
      match text with
      | EmptyString => true
      | String _ _ => false
      end
  | String p pat' =>
      if Ascii.eqb p "%"%char then
        (fix any (t : string) : bool :=
           like pat' t ||
           match t with
           | EmptyString => false
           | String _ t' => any t'
           end) text
      else
        match text with
        | EmptyString => false
        | String c text' =>
            (Ascii.eqb p "_"%char || Ascii.eqb (lower p) (lower c))
            && like pat' text'
        end
  end.



(** [ORDER BY created_at DESC] *)
Definition created_desc (a b : Z * Movement.t) : Prop :=
  Movement.created_at b.2 <= Movement.created_at a.2.

#[global] Instance created_desc_dec a b : Decision (created_desc a b).
Proof. unfold created_desc. apply _. Defined.

(** The WHERE clause [list_movements] assembles; [now] is the clock. *)
Definition movements_where (now : Z) (product_id days : option Z)
    (kv : Z * Movement.t) : bool :=
  match product_id with
  | Some p => if truthy p then Movement.product_id kv.2 =? p else true
  | None => true
  end
  && match days with
     | Some d =>
         if truthy d && (0 <? d)
         then now - timedelta_days d <=? Movement.created_at kv.2
         else true
     | None => true
     end.

Definition list_movements (now : Z) (product_id days : option Z) (db : DB)
  : list MovementRead.t :=
  movement_read
    <$> merge_sort created_desc
          (filter (fun kv => movements_where now product_id days kv = true)
                  (rows (inventory_movements db))).

(** Databases the API can reach from an empty file. *)
Definition reachable (db : DB) : Prop :=
  exists h, db = run h init_db.

(** No two product rows share a SKU; no two category rows share a name. *)
Definition sku_unique (db : DB) : Prop :=
  forall k1 k2 p1 p2,
    products db !! k1 = Some p1 -> products db !! k2 = Some p2 ->
    Product.sku p1 = Product.sku p2 -> k1 = k2.

Definition category_names_unique (db : DB) : Prop :=
  forall k1 k2 c1 c2,
    categories db !! k1 = Some c1 -> categories db !! k2 = Some c2 ->
    Category.name c1 = Category.name c2 -> k1 = k2.

(** Every movement row points at a product row that is there. *)
Definition movements_resolve (db : DB) : Prop :=
  forall i m, inventory_movements db !! i = Some m ->
              is_Some (products db !! Movement.product_id m).

Definition is_delete (r : Request) : Prop :=
  match r with
  | DELETE_product _ => True
  | _ => False
  end.



(** PATCH semantics of one column: the stored value [new] against the
    value [old] before and what the payload [sent]. *)
Definition patched_not_null {A} (sent : option (option A)) (old new : A) : Prop :=
  (sent = None -> new = old) /\ (forall v, sent = Some (Some v) -> new = v) /\
  sent <> Some None.

Definition patched_nullable {A} (sent : option (option A))
    (old new : option A) : Prop :=
  (sent = None -> new = old) /\ (forall v, sent = Some v -> new = v).


(** A text with its ASCII capitals folded. *)
Fixpoint lower_string (s : string) : string :=
  match s with
  | EmptyString => EmptyString
  | String c s' => String (lower c) (lower_string s')
  end.

(** More sample data. *)
Module Fixture.
Definition tools : Category.t := Category.mk "tools".

(** A store with the one category. *)
Definition db_tools : DB := (create_category tools init_db).2.

(** The widget came and went; nothing else happened. *)
Definition widget_history : list (Z * Request) :=
  [(0, POST_products Sample.widget)].

Definition later_history : list (Z * Request) :=
  [(4000, DELETE_product 1)].
End Fixture.

(** ** Basic facts about the helpers *)

Lemma int_or_0_Some v : int_or_0 (Some v) = v.
Proof. unfold int_or_0. destruct (Z.eqb_spec v 0); congruence. Qed.


Lemma set_quantity_same p : Product.set_quantity (Product.quantity p) p = p.
Proof. by destruct p. Qed.

Lemma quantity_set_quantity q p :
  Product.quantity (Product.set_quantity q p) = q.
Proof. done. Qed.

Section rowid_facts.
Context {A : Type}.
Implicit Types t : gmap Z A.

Lemma max_rowid_ge t k x : t !! k = Some x -> k <= max_rowid t.
Proof.
  revert k x. unfold max_rowid.
  apply (map_fold_weak_ind (fun r t => forall k x, t !! k = Some x -> k <= r)).
  - intros k x. by rewrite lookup_empty.
  - intros i y m r _ IH k x. rewrite lookup_insert.
    case_decide as Hik; intros Hk.
    + subst. lia.
    + specialize (IH _ _ Hk). lia.
Qed.

Lemma next_rowid_fresh seq t : t !! next_rowid seq t = None.
Proof.
  destruct (t !! next_rowid seq t) as [x|] eqn:E; [|done].
  apply max_rowid_ge in E. unfold next_rowid in E. lia.
Qed.

Lemma next_rowid_gt_seq seq t : seq < next_rowid seq t.
Proof. unfold next_rowid. lia. Qed.
End rowid_facts.

(** ** The ledger: [create_movement] *)

(** What a successful [create_movement] does, in one equation. *)
Lemma create_movement_success now payload db prod :
  products db !! MovementCreate.product_id payload = Some prod ->
  0 <= Product.quantity prod + MovementCreate.change payload ->
  let move_id := next_rowid (seq_movements db) (inventory_movements db) in
  let row :=
    Movement.mk (MovementCreate.product_id payload)
      (MovementCreate.change payload) (MovementCreate.reason payload)
      (MovementCreate.reference payload) now in
  create_movement now payload db =
    (Ok (movement_read (move_id, row)),
     mkDB (suppliers db) (categories db)
       (<[MovementCreate.product_id payload :=
            Product.set_quantity
              (Product.quantity prod + MovementCreate.change payload) prod]>
          (products db))
       (<[move_id := row]> (inventory_movements db))
       (seq_suppliers db) (seq_categories db) (seq_products db) move_id).
Proof.
  intros Hprod Hq. unfold create_movement. rewrite Hprod, int_or_0_Some.
  destruct (Z.ltb_spec (Product.quantity prod + MovementCreate.change payload) 0);
    [lia|].
  cbn [inventory_movements]. by rewrite lookup_insert_eq.
Qed.

(** Every outcome of [create_movement], by cases. *)
Lemma create_movement_cases now payload db :
  (products db !! MovementCreate.product_id payload = None /\
   create_movement now payload db =
     (Raise (HTTPException 404 "Product not found"), db)) \/
  (exists prod,
     products db !! MovementCreate.product_id payload = Some prod /\
     Product.quantity prod + MovementCreate.change payload < 0 /\
     create_movement now payload db =
       (Raise (HTTPException 400 "Insufficient stock"), db)) \/
  (exists prod,
     products db !! MovementCreate.product_id payload = Some prod /\
     0 <= Product.quantity prod + MovementCreate.change payload /\
     exists r, (create_movement now payload db).1 = Ok r).
Proof.
  destruct (products db !! MovementCreate.product_id payload) as [prod|] eqn:Hp.
  - right.
    destruct (Z.ltb_spec (Product.quantity prod + MovementCreate.change payload) 0).
    + left. exists prod. split_and!; [done..|].
      unfold create_movement. rewrite Hp, int_or_0_Some.
      by destruct (Z.ltb_spec
                     (Product.quantity prod + MovementCreate.change payload) 0);
        [|lia].
    + right. exists prod. split_and!; [done..|].
      rewrite (create_movement_success _ _ _ _ Hp) by done. eauto.
  - left. split; [done|]. unfold create_movement. by rewrite Hp.
Qed.



(** C3: for an existing product with quantity [q] and a change [c] with
    [q + c < 0], [create_movement] raises HTTP 400 "Insufficient stock" and
    the database is the one before the call: no quantity is changed and no
    movement row is written. *)
Theorem record_movement_insufficient now payload db prod :
  products db !! MovementCreate.product_id payload = Some prod ->
  Product.quantity prod + MovementCreate.change payload < 0 ->
  create_movement now payload db =
    (Raise (HTTPException 400 "Insufficient stock"), db).
Proof.
  intros Hprod Hq. unfold create_movement. rewrite Hprod, int_or_0_Some.
  by destruct (Z.ltb_spec
                 (Product.quantity prod + MovementCreate.change payload) 0);
    [|lia].
Qed.

Lemma record_movement_insufficient_witness :
  create_movement 1000 Sample.oversale Sample.db_widget =
    (Raise (HTTPException 400 "Insufficient stock"), Sample.db_widget).
Proof.
  apply (record_movement_insufficient 1000 Sample.oversale Sample.db_widget
           Sample.widget_row).
  - reflexivity.
  - vm_compute. reflexivity.
Defined.

(** C4 as stated fails: a movement with [change = 0] on an existing product
    is accepted, and a zero-change row is written. *)
Lemma zero_change_is_accepted :
  exists r db',
    create_movement 1000 Sample.nothing Sample.db_widget = (Ok r, db') /\
    MovementRead.change r = 0 /\
    inventory_movements Sample.db_widget !! MovementRead.id r = None /\
    inventory_movements db' !! MovementRead.id r =
      Some (Movement.mk 1 0 "adjustment" None 1000).
Proof. eexists _, _. split_and!; reflexivity. Qed.

(** C4, amended: [create_movement] does not reject a zero change.  For an
    existing product whose quantity is not negative, a call with
    [change = 0] succeeds: it writes one movement row with change 0 under a
    new rowid and leaves the product table as it was. *)
Theorem zero_change_recorded now payload db prod :
  products db !! MovementCreate.product_id payload = Some prod ->
  0 <= Product.quantity prod ->
  MovementCreate.change payload = 0 ->
  exists r db',
    create_movement now payload db = (Ok r, db') /\
    MovementRead.change r = 0 /\
    products db' = products db /\
    inventory_movements db !! MovementRead.id r = None /\
    inventory_movements db' =
      <[MovementRead.id r :=
          Movement.mk (MovementCreate.product_id payload) 0
            (MovementCreate.reason payload)
            (MovementCreate.reference payload) now]>
        (inventory_movements db).
Proof.
  intros Hprod Hq Hc.
  eexists _, _. split; [apply (create_movement_success _ _ _ _ Hprod); lia|].
  cbn [products inventory_movements movement_read MovementRead.change
       MovementRead.id fst snd Movement.change].
  rewrite Hc, Z.add_0_r, set_quantity_same.
  split_and!; try done.
  - by apply insert_id.
  - apply next_rowid_fresh.
Qed.

Lemma zero_change_recorded_witness :
  exists r db',
    create_movement 1000 Sample.nothing Sample.db_widget = (Ok r, db') /\
    MovementRead.change r = 0 /\
    products db' = products Sample.db_widget /\
    inventory_movements Sample.db_widget !! MovementRead.id r = None /\
    inventory_movements db' =
      <[MovementRead.id r := Movement.mk 1 0 "adjustment" None 1000]>
        (inventory_movements Sample.db_widget).
Proof.
  apply (zero_change_recorded 1000 Sample.nothing Sample.db_widget
           Sample.widget_row).
  - reflexivity.
  - vm_compute. discriminate.
  - reflexivity.
Defined.

(** ** Quantity against the ledger *)

Lemma sum_changes_empty pid : sum_changes pid ∅ = 0.
Proof. unfold sum_changes. by rewrite map_fold_empty. Qed.

Lemma sum_changes_insert pid i m (t : gmap Z Movement.t) :
  t !! i = None ->
  sum_changes pid (<[i := m]> t) =
    (if decide (Movement.product_id m = pid) then Movement.change m else 0)
    + sum_changes pid t.
Proof.
  intros Hi. unfold sum_changes. rewrite map_fold_insert_L; [|..|done].
  - by case_decide.
  - intros. repeat case_decide; lia.
Qed.

Lemma sum_changes_unreferenced pid (t : gmap Z Movement.t) :
  (forall i m, t !! i = Some m -> Movement.product_id m <> pid) ->
  sum_changes pid t = 0.
Proof.
  induction t as [|i m t Hi IH] using map_ind; intros Hno.
  - apply sum_changes_empty.
  - rewrite sum_changes_insert by done. rewrite IH.
    + rewrite decide_False; [done|]. apply (Hno i). by rewrite lookup_insert_eq.
    + intros j m' Hj. apply (Hno j). rewrite lookup_insert_ne; [done|].
      intros ->. congruence.
Qed.

(** One successful call moves the quantity and the ledger sum together. *)
Lemma record_one_offset now payload r db db' pid p :
  create_movement now payload db = (Ok r, db') ->
  products db !! pid = Some p ->
  exists p',
    products db' !! pid = Some p' /\
    Product.quantity p' - movement_sum pid db' =
      Product.quantity p - movement_sum pid db.
Proof.
  intros Hcall Hp.
  destruct (create_movement_cases now payload db)
    as [[_ E]|[(prod & _ & _ & E)|(prod & Hprod & Hq & _)]];
    [by rewrite E in Hcall..|].
  rewrite (create_movement_success _ _ _ _ Hprod Hq) in Hcall.
  injection Hcall as _ <-. unfold movement_sum. cbn [products inventory_movements].
  rewrite sum_changes_insert by apply next_rowid_fresh. cbn [Movement.product_id
    Movement.change].
  destruct (decide (MovementCreate.product_id payload = pid)) as [E|Hne].
  - rewrite E in *. rewrite lookup_insert_eq. eexists; split; [done|].
    rewrite quantity_set_quantity. replace prod with p by congruence. lia.
  - rewrite lookup_insert_ne by done. exists p. split; [done|lia].
Qed.

(** Over any sequence of successful calls, [quantity - sum of changes] of
    every product stays what it was. *)
Lemma record_all_offset calls : forall db db' pid p,
  record_all calls db = Some db' ->
  products db !! pid = Some p ->
  exists p',
    products db' !! pid = Some p' /\
    Product.quantity p' - movement_sum pid db' =
      Product.quantity p - movement_sum pid db.
Proof.
  induction calls as [|[now payload] calls IH]; intros db db' pid p Hrun Hp.
  - injection Hrun as <-. eauto.
  - cbn in Hrun.
    destruct (create_movement now payload db) as [[r|e] db1] eqn:Hcall; [|done].
    destruct (record_one_offset _ _ _ _ _ _ _ Hcall Hp) as (p1 & Hp1 & Heq1).
    destruct (IH _ _ _ _ Hrun Hp1) as (p2 & Hp2 & Heq2).
    exists p2. split; [done|lia].
Qed.

(** ** Every handler against [effect] *)

Lemma find_unique {A} (f : A -> bool) (l : list A) x :
  x ∈ l -> f x = true -> (forall y, y ∈ l -> f y = true -> y = x) ->
  List.find f l = Some x.
Proof.
  intros Hin Hfx Huniq.
  destruct (List.find f l) as [z|] eqn:E.
  - apply find_some in E as [Hz Hfz]. f_equal. apply Huniq; [|done].
    by apply list_elem_of_In.
  - apply list_elem_of_In in Hin. pose proof (find_none _ _ E _ Hin). congruence.
Qed.

Lemma fetchone_None {A} (cond : Z * A -> bool) (t : gmap Z A) k x :
  fetchone cond t = None -> t !! k = Some x -> cond (k, x) = false.
Proof.
  intros E Hk. apply (find_none _ _ E).
  apply list_elem_of_In. by apply elem_of_map_to_list.
Qed.

(** The row a handler has just inserted is the one its closing SELECT
    fetches, when no older row satisfies the condition. *)
Lemma fetchone_inserted {A} (cond : Z * A -> bool) (t : gmap Z A) k x :
  fetchone cond t = None -> cond (k, x) = true ->
  fetchone cond (<[k := x]> t) = Some (k, x).
Proof.
  intros Hnone Hc. apply find_unique; [|done|].
  - apply elem_of_map_to_list, lookup_insert_eq.
  - intros [j y] Hin Hcy. apply elem_of_map_to_list in Hin.
    rewrite lookup_insert in Hin. case_decide as Hjk.
    + by simplify_eq.
    + pose proof (fetchone_None _ _ _ _ Hnone Hin). congruence.
Qed.

Lemma create_product_fresh payload db :
  fetchone (fun kv : Z * Product.t =>
              bool_decide (Product.sku kv.2 = ProductCreate.sku payload))
           (products db) = None ->
  let product_id := next_rowid (seq_products db) (products db) in
  create_product payload db =
    (Ok (product_read (product_id, product_values payload)),
     mkDB (suppliers db) (categories db)
          (<[product_id := product_values payload]> (products db))
          (inventory_movements db)
          (seq_suppliers db) (seq_categories db) product_id
          (seq_movements db)).
Proof.
  intros Hnone. unfold create_product. rewrite Hnone. cbn [products].
  rewrite fetchone_inserted; [done..|]. by apply bool_decide_eq_true.
Qed.

Lemma create_product_duplicate payload db kv :
  fetchone (fun kv : Z * Product.t =>
              bool_decide (Product.sku kv.2 = ProductCreate.sku payload))
           (products db) = Some kv ->
  create_product payload db =
    (Raise (HTTPException 400 "SKU already exists"), db).
Proof. intros E. unfold create_product. by rewrite E. Qed.

Lemma handle_effect now r db : effect now r db (handle now r db).
Proof.
  destruct r; cbn [handle]; try apply effect_none.
  - unfold create_supplier. cbn [suppliers]. rewrite lookup_insert_eq.
    apply effect_supplier.
  - unfold create_category.
    destruct (fetchone _ (categories db)); [apply effect_none|].
    cbn [categories]. destruct (fetchone _ _); apply effect_category.
  - destruct (fetchone (fun kv : Z * Product.t =>
                 bool_decide (Product.sku kv.2 = ProductCreate.sku payload))
                (products db)) as [kv|] eqn:E.
    + rewrite (create_product_duplicate _ _ _ E). apply effect_none.
    + rewrite (create_product_fresh _ _ E). apply effect_product.
  - unfold update_product.
    destruct (products db !! product_id) as [row|] eqn:Hrow; [|apply effect_none].
    destruct (ProductUpdate.is_empty payload); [apply effect_none|].
    destruct (update_row payload row) as [row'|] eqn:Hup; [|apply effect_none].
    cbn [products]. rewrite lookup_insert_eq. by eapply effect_update.
  - unfold delete_product.
    destruct (products db !! product_id) as [row|] eqn:Hrow; [|apply effect_none].
    by eapply effect_delete.
  - destruct (create_movement_cases now payload db)
      as [[_ E]|[(prod & _ & _ & E)|(prod & Hprod & Hq & _)]].
    + rewrite E. apply effect_none.
    + rewrite E. apply effect_none.
    + rewrite (create_movement_success _ _ _ _ Hprod Hq). by apply effect_movement.
Qed.

(** ** Reachable databases are consistent *)

Lemma consistent_init : consistent init_db.
Proof. split; intros ? ?; cbn; by rewrite lookup_empty. Qed.

Lemma effect_consistent now r db db' :
  effect now r db db' -> consistent db -> consistent db'.
Proof.
  intros Heff [Hp Hm]. destruct Heff; try (by split).
  - split; cbn [products inventory_movements seq_products].
    + intros k p. rewrite lookup_insert. case_decide; intros Hk.
      * lia.
      * specialize (Hp _ _ Hk).
        pose proof (next_rowid_gt_seq (seq_products db) (products db)). lia.
    + intros i m Hi. specialize (Hm _ _ Hi).
      pose proof (next_rowid_gt_seq (seq_products db) (products db)). lia.
  - split; cbn [products inventory_movements seq_products]; [|done].
    intros k p. rewrite lookup_insert. case_decide; intros Hk; subst; eauto.
  - split; cbn [products inventory_movements seq_products]; [|done].
    intros k p. rewrite lookup_delete. case_decide; [done|]. eauto.
  - split; cbn [products inventory_movements seq_products].
    + intros k p. rewrite lookup_insert. case_decide; intros Hk; subst; eauto.
    + intros i m. rewrite lookup_insert. case_decide; intros Hi; [|eauto].
      simplify_eq. cbn. eauto.
Qed.

Lemma run_consistent h : forall db, consistent db -> consistent (run h db).
Proof.
  induction h as [|[now r] h IH]; intros db Hdb; [done|].
  cbn. apply IH. eapply effect_consistent; [apply handle_effect|done].
Qed.

(** A product id that has not been issued yet has no movement. *)
Lemma unissued_has_no_movement db :
  consistent db ->
  movement_sum (next_rowid (seq_products db) (products db)) db = 0.
Proof.
  intros [_ Hm]. apply sum_changes_unreferenced. intros i m Hi.
  specialize (Hm _ _ Hi).
  pose proof (next_rowid_gt_seq (seq_products db) (products db)). lia.
Qed.

(** C1 as stated fails: the widget is created through the catalog with ten
    on hand; after one successful sale of three its quantity is 7 while its
    movements sum to -3. *)
Lemma initial_quantity_is_not_in_the_ledger :
  exists db' p,
    Sample.db_widget = (create_product Sample.widget init_db).2 /\
    record_all [(1000, Sample.sale)] Sample.db_widget = Some db' /\
    products db' !! 1 = Some p /\
    Product.quantity p = 7 /\
    movement_sum 1 db' = -3 /\
    Product.quantity p <> movement_sum 1 db'.
Proof. eexists _, _. split_and!; try reflexivity. vm_compute. discriminate. Qed.

(** C1, amended: for a product created through the catalog with initial
    quantity [q0] (in any database the API can reach from [init_db]) and
    every sequence of successful [create_movement] calls after that, the
    cached quantity equals [q0] plus the sum of the change fields of all
    movement rows whose product_id is that product; it equals the bare sum
    when [q0] is 0. *)
Theorem quantity_is_initial_plus_ledger h payload r db1 calls db2 :
  create_product payload (run h init_db) = (Ok r, db1) ->
  record_all calls db1 = Some db2 ->
  exists p,
    products db2 !! ProductRead.id r = Some p /\
    Product.quantity p =
      ProductCreate.quantity payload + movement_sum (ProductRead.id r) db2.
Proof.
  intros Hcreate Hcalls.
  pose proof (run_consistent h _ consistent_init) as Hcons.
  destruct (fetchone (fun kv : Z * Product.t =>
              bool_decide (Product.sku kv.2 = ProductCreate.sku payload))
             (products (run h init_db))) as [kv|] eqn:E.
  { by rewrite (create_product_duplicate _ _ _ E) in Hcreate. }
  rewrite (create_product_fresh _ _ E) in Hcreate.
  injection Hcreate as <- <-. cbn [product_read ProductRead.id fst].
  set (pid := next_rowid _ _) in *.
  edestruct (record_all_offset calls _ db2 pid (product_values payload) Hcalls)
    as (p & Hp & Hoff).
  { cbn [products]. apply lookup_insert_eq. }
  exists p. split; [done|].
  assert (movement_sum pid (run h init_db) = 0) as H0
    by apply (unissued_has_no_movement _ Hcons).
  unfold movement_sum in *. cbn [inventory_movements] in Hoff.
  cbn [product_values Product.quantity] in Hoff. lia.
Qed.

Lemma quantity_is_initial_plus_ledger_witness :
  exists p,
    products (run [(1000, POST_movements Sample.sale)] Sample.db_widget) !! 1
      = Some p /\
    Product.quantity p =
      10 + movement_sum 1
             (run [(1000, POST_movements Sample.sale)] Sample.db_widget).
Proof.
  apply (quantity_is_initial_plus_ledger []
           Sample.widget
           (product_read (1, Sample.widget_row))
           Sample.db_widget
           [(1000, Sample.sale)]
           (run [(1000, POST_movements Sample.sale)] Sample.db_widget)).
  - reflexivity.
  - reflexivity.
Defined.

(** ** Non-negative quantities *)

Lemma update_row_quantity u p p' :
  update_row u p = Some p' ->
  set_not_null (ProductUpdate.quantity u) (Product.quantity p)
    = Some (Product.quantity p').
Proof.
  unfold update_row. intros H.
  repeat match type of H with
         | (?x ≫= _) = _ => destruct x eqn:?; cbn in H; [|done]
         end.
  by injection H as <-.
Qed.

Lemma effect_quantities_nonneg now r db db' :
  effect now r db db' ->
  catalog_quantity_nonneg r -> quantities_nonneg db -> quantities_nonneg db'.
Proof.
  unfold quantities_nonneg.
  intros Heff Hr Hdb. destruct Heff; try done; cbn [products]; intros k p.
  - rewrite lookup_insert. case_decide; intros Hk; [|eauto].
    simplify_eq. exact Hr.
  - rewrite lookup_insert. case_decide; intros Hk; [|eauto].
    simplify_eq. cbn in Hr.
    match goal with H : update_row _ _ = _ |- _ =>
      apply update_row_quantity in H; rename H into Hq end.
    destruct (ProductUpdate.quantity payload) as [[q|]|]; cbn in Hq;
      simplify_eq; [done|].
    rewrite <- Hq. eauto.
  - rewrite lookup_delete. case_decide; [done|]. eauto.
  - rewrite lookup_insert. case_decide; intros Hk; [|eauto].
    simplify_eq. by rewrite quantity_set_quantity.
Qed.

(** C5 as stated fails: [create_product] and [update_product] store a
    negative quantity when the payload carries one. *)
Lemma catalog_stores_negative_quantity :
  ~ quantities_nonneg (handle 0 (POST_products Sample.backorder) init_db) /\
  ~ quantities_nonneg
      (handle 0 (PATCH_product 1 (Sample.set_stock (-1))) Sample.db_widget).
Proof.
  split; intros H.
  - specialize (H 1 (product_values Sample.backorder) eq_refl). cbn in H. lia.
  - specialize (H 1 (Product.set_quantity (-1) Sample.widget_row) eq_refl).
    cbn in H. lia.
Qed.

(** C5, amended: the quantity of every product stays non-negative over any
    history of requests in which no [create_product] or [update_product]
    payload carries a negative quantity; [create_movement] never stores a
    negative quantity. *)
Theorem quantities_stay_nonneg h : forall db,
  Forall (fun c : Z * Request => catalog_quantity_nonneg c.2) h ->
  quantities_nonneg db ->
  quantities_nonneg (run h db).
Proof.
  induction h as [|[now r] h IH]; intros db Hh Hdb; [done|].
  apply Forall_cons in Hh as [Hr Hh]. cbn. apply IH; [done|].
  eapply effect_quantities_nonneg; [apply handle_effect|done..].
Qed.

Lemma quantities_stay_nonneg_witness :
  quantities_nonneg
    (run [(0, POST_products Sample.widget);
          (1000, POST_movements Sample.sale);
          (2000, POST_movements Sample.oversale);
          (3000, PATCH_product 1 (Sample.set_stock 0))] init_db).
Proof.
  apply (quantities_stay_nonneg
           [(0, POST_products Sample.widget);
            (1000, POST_movements Sample.sale);
            (2000, POST_movements Sample.oversale);
            (3000, PATCH_product 1 (Sample.set_stock 0))] init_db).
  - repeat constructor; vm_compute; discriminate.
  - intros k p Hk. vm_compute in Hk. discriminate.
Defined.

(** ** The movement table only grows *)

Lemma effect_movements_kept now r db db' i m :
  effect now r db db' ->
  inventory_movements db !! i = Some m ->
  inventory_movements db' !! i = Some m.
Proof.
  intros Heff Hi. destruct Heff; try done. cbn [inventory_movements].
  rewrite lookup_insert_ne; [done|]. intros <-.
  by rewrite next_rowid_fresh in Hi.
Qed.

(** C6: no request updates or deletes a movement row.  A row found under
    rowid [i] in the movement table is found there, with the same product
    id, change, reason, reference and creation time, after any history of
    requests. *)
Theorem movements_append_only h : forall db i m,
  inventory_movements db !! i = Some m ->
  inventory_movements (run h db) !! i = Some m.
Proof.
  induction h as [|[now r] h IH]; intros db i m Hi; [done|].
  cbn. apply IH. eapply effect_movements_kept; [apply handle_effect|done].
Qed.

Lemma movements_append_only_witness :
  inventory_movements
    (run [(2000, POST_movements Sample.nothing);
          (3000, DELETE_product 1);
          (4000, POST_products Sample.widget)] Sample.db_sold) !! 1
  = Some (Movement.mk 1 (-3) "sale" None 1000).
Proof.
  apply (movements_append_only
           [(2000, POST_movements Sample.nothing);
            (3000, DELETE_product 1);
            (4000, POST_products Sample.widget)] Sample.db_sold 1).
  reflexivity.
Defined.

(** C10: deleting an existing product removes that product row and nothing
    else.  Every movement row, those of the deleted product included, every
    other product, every supplier and every category is as before. *)
Theorem delete_product_frame product_id row db :
  products db !! product_id = Some row ->
  exists db',
    delete_product product_id db = (Ok "deleted", db') /\
    products db' !! product_id = None /\
    (forall k, k <> product_id -> products db' !! k = products db !! k) /\
    (forall i m, inventory_movements db !! i = Some m ->
                 Movement.product_id m = product_id ->
                 inventory_movements db' !! i = Some m) /\
    inventory_movements db' = inventory_movements db /\
    suppliers db' = suppliers db /\
    categories db' = categories db.
Proof.
  intros Hrow. unfold delete_product. rewrite Hrow.
  eexists. split; [done|]. cbn [products inventory_movements suppliers categories].
  split_and!; try done.
  - apply lookup_delete_eq.
  - intros k Hk. by rewrite lookup_delete_ne.
Qed.

Lemma delete_product_frame_witness :
  exists db',
    delete_product 1 Sample.db_sold = (Ok "deleted", db') /\
    products db' !! 1 = None /\
    (forall k, k <> 1 -> products db' !! k = products Sample.db_sold !! k) /\
    (forall i m, inventory_movements Sample.db_sold !! i = Some m ->
                 Movement.product_id m = 1 ->
                 inventory_movements db' !! i = Some m) /\
    inventory_movements db' = inventory_movements Sample.db_sold /\
    suppliers db' = suppliers Sample.db_sold /\
    categories db' = categories Sample.db_sold.
Proof.
  apply (delete_product_frame 1 (Product.set_quantity 7 Sample.widget_row)
           Sample.db_sold).
  reflexivity.
Defined.

(** ** Analytics: valuation *)

Lemma sql_sum_int_or_0 l : int_or_0 (sql_sum_int l) = foldr Z.add 0 l.
Proof. destruct l; [done|]. unfold sql_sum_int. apply int_or_0_Some. Qed.


Lemma foldr_rows_int {A} (g : A -> Z) (l : list (Z * A)) :
  foldr Z.add 0 (map g l.*2) =
  foldr (uncurry (fun (_ : Z) p acc => g p + acc)) 0 l.
Proof. induction l as [|[k p] l IH]; [done|]. cbn. by rewrite IH. Qed.



(** ** Analytics: low stock *)

#[local] Instance quantity_asc_total : Total quantity_asc.
Proof. intros a b. unfold quantity_asc. lia. Qed.

#[local] Instance quantity_asc_trans : Transitive quantity_asc.
Proof. intros a b c. unfold quantity_asc. lia. Qed.

Lemma low_stock_unfold threshold db :
  low_stock threshold db =
  product_read <$>
    merge_sort quantity_asc
      (filter (fun kv : Z * Product.t => is_low threshold kv.2)
              (rows (products db))).
Proof. by destruct threshold. Qed.


(** ** Analytics: top movers *)

#[local] Instance moved_desc_total : Total moved_desc.
Proof. intros a b. unfold moved_desc. lia. Qed.

#[local] Instance moved_desc_trans : Transitive moved_desc.
Proof. intros a b c. unfold moved_desc. lia. Qed.


Lemma moved_in_cons pid m ms :
  moved_in pid (m :: ms) =
  (if decide (Movement.product_id m = pid)
   then Z.abs (Movement.change m) else 0) + moved_in pid ms.
Proof.
  unfold moved_in. rewrite filter_cons. by case_decide.
Qed.

Lemma moved_in_absent pid ms :
  pid ∉ Movement.product_id <$> ms -> moved_in pid ms = 0.
Proof.
  induction ms as [|m ms IH]; [done|].
  rewrite fmap_cons, not_elem_of_cons. intros [Hne Hnot].
  rewrite moved_in_cons, IH by done. by rewrite decide_False.
Qed.

(** GROUP BY: one entry per product id that occurs, holding its sum. *)
Lemma group_moved_lookup ms pid :
  group_moved ms !! pid =
  if decide (pid ∈ Movement.product_id <$> ms)
  then Some (moved_in pid ms) else None.
Proof.
  induction ms as [|m ms IH]; cbn [group_moved foldr].
  { rewrite lookup_empty. rewrite decide_False; [done|]. by intros ?%elem_of_nil. }
  fold (group_moved ms). rewrite fmap_cons, moved_in_cons, lookup_insert.
  destruct (decide (Movement.product_id m = pid)) as [<-|Hne].
  - rewrite decide_True by apply list_elem_of_here. rewrite IH.
    case_decide as Hin; cbn [default]; [done|].
    by rewrite (moved_in_absent _ _ Hin).
  - rewrite IH. destruct (decide (pid ∈ Movement.product_id <$> ms)) as [Hin|Hin].
    + rewrite decide_True; [done|]. by apply list_elem_of_further.
    + rewrite decide_False; [done|]. rewrite not_elem_of_cons.
      split; [congruence|done].
Qed.

Lemma group_moved_elem ms pid moved :
  (pid, moved) ∈ map_to_list (group_moved ms) <->
  pid ∈ Movement.product_id <$> ms /\ moved = moved_in pid ms.
Proof.
  rewrite elem_of_map_to_list, group_moved_lookup. case_decide as Hin; split.
  - by intros [= <-].
  - by intros [_ ->].
  - done.
  - by intros [? _].
Qed.

Lemma group_moved_count ms :
  length (map_to_list (group_moved ms)) =
  length (remove_dups (Movement.product_id <$> ms)).
Proof.
  rewrite <- (length_fmap fst). apply Permutation_length, NoDup_Permutation.
  - apply NoDup_fst_map_to_list.
  - apply NoDup_remove_dups.
  - intros pid. rewrite elem_of_remove_dups, list_elem_of_fmap. split.
    + intros ([k v] & -> & Hin). by apply group_moved_elem in Hin as [? _].
    + intros Hin. exists (pid, moved_in pid ms). split; [done|].
      by apply group_moved_elem.
Qed.

Lemma sql_limit_split {A} n (l : list A) :
  exists rest, l = sql_limit n l ++ rest /\ (n < 0 -> rest = []).
Proof.
  unfold sql_limit. destruct (Z.ltb_spec n 0).
  - exists []. by rewrite app_nil_r.
  - exists (drop (Z.to_nat n) l). split; [by rewrite take_drop|lia].
Qed.

Lemma sql_limit_length {A} n (l : list A) :
  length (sql_limit n l) =
  if n <? 0 then length l else (Z.to_nat n `min` length l)%nat.
Proof. unfold sql_limit. destruct (n <? 0); [done|]. apply length_take. Qed.




(** The scenarios of the specification, run on the model. *)

Example scenario_sale_then_oversale :
  let '(r1, db1) := create_movement 1000 Sample.sale Sample.db_widget in
  let '(r2, db2) := create_movement 2000
                      (MovementCreate.mk 1 (-10) "sale" None) db1 in
  r1 = Ok (MovementRead.mk 1 1 (-3) "sale" None 1000) /\
  Product.quantity <$> products db1 !! 1 = Some 7 /\
  r2 = Raise (HTTPException 400 "Insufficient stock") /\
  Product.quantity <$> products db2 !! 1 = Some 7.
Proof. vm_compute. by split_and!. Qed.

Example scenario_top_movers :
  let db :=
    run [(0, POST_products Sample.widget);
         (10, POST_products Sample.bolt);
         (20, POST_movements (MovementCreate.mk 2 1 "purchase" None));
         (30, POST_movements (MovementCreate.mk 1 (-3) "sale" None));
         (40, POST_movements (MovementCreate.mk 1 3 "return" None));
         (50, POST_movements (MovementCreate.mk 2 (-1) "sale" None))] init_db in
  top_movers 60 30 10 db =
    [TopMover.mk 1 "W-1" "widget" 6; TopMover.mk 2 "B-2" "bolt" 2].
Proof. reflexivity. Qed.

Example scenario_low_stock :
  let a := ProductCreate.mk "A" "a" None (0 # 1)%Q (0 # 1)%Q 2 5 true None None in
  let b := ProductCreate.mk "B" "b" None (0 # 1)%Q (0 # 1)%Q 10 5 true None None in
  let c := ProductCreate.mk "C" "c" None (0 # 1)%Q (0 # 1)%Q 1 5 false None None in
  let db := run [(0, POST_products a); (0, POST_products b);
                 (0, POST_products c)] init_db in
  low_stock None db = [product_read (1, product_values a)].
Proof. reflexivity. Qed.

(** * Beyond the claims *)


(** ** Database location *)

Lemma prefix_split a : forall s,
  String.prefix a s = true -> s = a +:+ skip (String.length a) s.
Proof.
  induction a as [|c a IH]; intros s Hpre; [by destruct s|].
  destruct s as [|d s]; [done|]. cbn in Hpre.
  destruct (ascii_dec c d) as [->|]; [|done].
  change (String d s = String d (a +:+ skip (String.length a) s)).
  f_equal. by apply IH.
Qed.

(** X1: [_sqlite_path] strips one leading [sqlite:///] and nothing else:
    a URL built from a path gives the path back, and in general the result
    is the URL itself or the URL without that one prefix. *)
Theorem sqlite_path_strips_scheme :
  (forall path, _sqlite_path ("sqlite:///" +:+ path) = path) /\
  (forall url, _sqlite_path url = url \/
               url = "sqlite:///" +:+ _sqlite_path url).
Proof.
  split.
  - intros path. unfold _sqlite_path.
    replace (String.prefix "sqlite:///" ("sqlite:///" +:+ path)) with true
      by (cbn; by destruct path).
    cbn. by destruct path.
  - intros url. unfold _sqlite_path.
    destruct (String.prefix "sqlite:///" url) eqn:Hpre; [|by left].
    right. destruct url as [|c url]; [done|].
    cbn [replace_first]. rewrite Hpre.
    by apply prefix_split in Hpre.
Qed.

(** ** Queries of the form SELECT ... WHERE ... ORDER BY *)

Section select.
Context {A B : Type}.
Context (P : Z * A -> Prop) `{!forall x, Decision (P x)}.
Context (R : relation (Z * A)) `{!forall x y, Decision (R x y)}.
Context (f : Z * A -> B).
Implicit Types t : gmap Z A.

Lemma select_elem_of t kv :
  kv ∈ merge_sort R (filter P (rows t)) <-> t !! kv.1 = Some kv.2 /\ P kv.
Proof.
  destruct kv as [k x].
  rewrite merge_sort_Permutation, list_elem_of_filter.
  unfold rows. rewrite elem_of_map_to_list. cbn. tauto.
Qed.

Lemma select_fmap_elem_of t r :
  r ∈ f <$> merge_sort R (filter P (rows t)) <->
  exists k x, t !! k = Some x /\ P (k, x) /\ r = f (k, x).
Proof.
  rewrite list_elem_of_fmap. split.
  - intros ([k x] & -> & Hin). apply select_elem_of in Hin as [Hk HP]. eauto.
  - intros (k & x & Hk & HP & ->). exists (k, x). split; [done|].
    by apply select_elem_of.
Qed.

Lemma select_NoDup t : NoDup (merge_sort R (filter P (rows t))).*1.
Proof.
  rewrite merge_sort_Permutation.
  apply (sublist_NoDup _ (map_to_list t).*1); [apply NoDup_fst_map_to_list|].
  apply fmap_sublist. unfold rows. apply sublist_filter.
Qed.
End select.

#[local] Instance id_desc_total {A} : Total (@id_desc A).
Proof. intros a b. unfold id_desc. lia. Qed.

#[local] Instance id_desc_trans {A} : Transitive (@id_desc A).
Proof. intros a b c. unfold id_desc. lia. Qed.

(** Sorted by rowid descending without repeats is strictly descending. *)
Lemma id_desc_strict {A} (l : list (Z * A)) :
  StronglySorted id_desc l -> NoDup l.*1 ->
  StronglySorted (fun a b => b.1 < a.1) l.
Proof.
  induction 1 as [|a l Hl IH Hall]; intros Hnd; [constructor|].
  rewrite fmap_cons in Hnd. apply NoDup_cons in Hnd as [Hnot Hnd].
  constructor; [by apply IH|].
  rewrite Forall_forall in *. intros b Hb.
  specialize (Hall b Hb). unfold id_desc in Hall.
  assert (b.1 <> a.1); [|lia].
  intros Heq. apply Hnot. rewrite <- Heq. by apply list_elem_of_fmap_2.
Qed.

Lemma select_id_desc_strict {A} (P : Z * A -> Prop)
    `{!forall x, Decision (P x)} (t : gmap Z A) :
  StronglySorted (fun a b : Z * A => b.1 < a.1)
    (merge_sort id_desc (filter P (rows t))).
Proof.
  apply id_desc_strict; [|apply select_NoDup].
  apply StronglySorted_merge_sort; apply _.
Qed.

Lemma filter_True_id {A} (l : list A) : filter (fun _ => True) l = l.
Proof.
  induction l as [|x l IH]; [done|]. rewrite filter_cons_True by done.
  by rewrite IH.
Qed.

(** X2: [list_suppliers] returns every supplier row and nothing else, in
    strictly descending order of id (newest first), so each once. *)
Theorem list_suppliers_exact db :
  (forall r, r ∈ list_suppliers db <->
             suppliers db !! SupplierRead.id r = Some (SupplierRead.row r)) /\
  StronglySorted (fun a b => SupplierRead.id b < SupplierRead.id a)
    (list_suppliers db).
Proof.
  unfold list_suppliers.
  rewrite <- (filter_True_id (rows (suppliers db))). split.
  - intros r. rewrite select_fmap_elem_of. split.
    + by intros (k & x & Hk & _ & ->).
    + intros Hr. destruct r as [k x]. by exists k, x.
  - eapply StronglySorted_fmap; [|apply select_id_desc_strict]. by intros [] [].
Qed.

#[local] Instance name_asc_total : Total name_asc.
Proof. intros a b. unfold name_asc. apply String.leb_total. Qed.

(** X3: [list_categories] returns every category row and nothing else, each
    once, with names in ascending byte order. *)
Theorem list_categories_exact db :
  (forall r, r ∈ list_categories db <->
             categories db !! CategoryRead.id r = Some (CategoryRead.row r)) /\
  NoDup (CategoryRead.id <$> list_categories db) /\
  Sorted (fun a b =>
            String.leb (Category.name (CategoryRead.row a))
                       (Category.name (CategoryRead.row b)) = true)
         (list_categories db).
Proof.
  unfold list_categories. split_and!.
  - intros r. rewrite <- (filter_True_id (rows (categories db))).
    rewrite select_fmap_elem_of. split.
    + by intros (k & x & Hk & _ & ->).
    + intros Hr. destruct r as [k x]. by exists k, x.
  - rewrite <- list_fmap_compose.
    change (CategoryRead.id ∘ category_read) with (@fst Z Category.t).
    rewrite <- (filter_True_id (rows (categories db))). apply select_NoDup.
  - eapply Sorted_fmap; [|apply Sorted_merge_sort; apply _]. by intros [] [].
Qed.

(** ** Listing products *)

Lemma truthy_true v : truthy v = true <-> v <> 0.
Proof. unfold truthy. destruct (Z.eqb_spec v 0); cbn; split; congruence. Qed.

Lemma truthy_false v : truthy v = false <-> v = 0.
Proof. unfold truthy. destruct (Z.eqb_spec v 0); cbn; split; congruence. Qed.







Lemma like_percent_unfold pat t :
  like (String "%" pat) t =
  like pat t || match t with
                | EmptyString => false
                | String _ t' => like (String "%" pat) t'
                end.
Proof. by destruct t. Qed.






(** ** Listing movements *)

Lemma movements_where_spec now product_id days k m :
  movements_where now product_id days (k, m) = true <->
  (forall p, product_id = Some p -> p <> 0 -> Movement.product_id m = p) /\
  (forall d, days = Some d -> 0 < d ->
             now - timedelta_days d <= Movement.created_at m).
Proof.
  unfold movements_where. rewrite andb_true_iff. cbn [snd].
  assert (match product_id with
          | Some p => if truthy p then Movement.product_id m =? p else true
          | None => true
          end = true <->
          (forall p, product_id = Some p -> p <> 0 ->
                     Movement.product_id m = p)) as ->.
  { destruct product_id as [p|]; [|split; [congruence|done]].
    destruct (truthy p) eqn:Ht.
    - apply truthy_true in Ht. rewrite Z.eqb_eq. split.
      + by intros -> p' [= <-] _.
      + intros H. by apply H.
    - apply truthy_false in Ht. split; [|done]. by intros _ p' [= <-] ?. }
  assert (match days with
          | Some d =>
              if truthy d && (0 <? d)
              then now - timedelta_days d <=? Movement.created_at m else true
          | None => true
          end = true <->
          (forall d, days = Some d -> 0 < d ->
                     now - timedelta_days d <= Movement.created_at m)) as ->.
  { destruct days as [d|]; [|split; [congruence|done]].
    destruct (truthy d && (0 <? d)) eqn:Ht.
    - apply andb_true_iff in Ht as [_ Hd%Z.ltb_lt]. rewrite Z.leb_le. split.
      + by intros H d' [= <-] _.
      + intros H. by apply H.
    - split; [|done]. intros _ d' [= <-] Hd.
      apply andb_false_iff in Ht as [Ht%truthy_false|Ht%Z.ltb_ge]; lia. }
  done.
Qed.

Lemma list_movements_elem_of now product_id days db r :
  r ∈ list_movements now product_id days db <->
  exists k m,
    inventory_movements db !! k = Some m /\ r = movement_read (k, m) /\
    (forall p, product_id = Some p -> p <> 0 -> Movement.product_id m = p) /\
    (forall d, days = Some d -> 0 < d ->
               now - timedelta_days d <= Movement.created_at m).
Proof.
  unfold list_movements. rewrite select_fmap_elem_of. split.
  - intros (k & m & Hk & Hw & ->). apply movements_where_spec in Hw.
    exists k, m. tauto.
  - intros (k & m & Hk & -> & Hw). exists k, m. split_and!; [done| |done].
    apply movements_where_spec. tauto.
Qed.

#[local] Instance created_desc_total : Total created_desc.
Proof. intros a b. unfold created_desc. lia. Qed.

#[local] Instance created_desc_trans : Transitive created_desc.
Proof. intros a b c. unfold created_desc. lia. Qed.


(** ** Unique keys *)

Lemma fetchone_is_None {A} (cond : Z * A -> bool) (t : gmap Z A) :
  (forall k x, t !! k = Some x -> cond (k, x) = false) ->
  fetchone cond t = None.
Proof.
  intros Hall. unfold fetchone.
  destruct (List.find cond (rows t)) as [[k x]|] eqn:E; [|done].
  apply find_some in E as [Hin Hc]. apply list_elem_of_In in Hin.
  apply elem_of_map_to_list in Hin. rewrite (Hall _ _ Hin) in Hc. done.
Qed.

Lemma fetchone_is_Some {A} (cond : Z * A -> bool) (t : gmap Z A) k x :
  t !! k = Some x -> cond (k, x) = true ->
  exists kv, fetchone cond t = Some kv.
Proof.
  intros Hk Hc. destruct (fetchone cond t) as [kv|] eqn:E; [eauto|].
  rewrite (fetchone_None _ _ _ _ E Hk) in Hc. done.
Qed.

(** X7: [create_product] refuses a SKU that some product row already
    carries: it answers 400 "SKU already exists" and writes nothing. *)
Theorem duplicate_sku_rejected payload db k p :
  products db !! k = Some p ->
  Product.sku p = ProductCreate.sku payload ->
  create_product payload db =
    (Raise (HTTPException 400 "SKU already exists"), db).
Proof.
  intros Hk Hsku.
  destruct (fetchone_is_Some
              (fun kv : Z * Product.t =>
                 bool_decide (Product.sku kv.2 = ProductCreate.sku payload))
              (products db) k p Hk) as [kv E].
  { by apply bool_decide_eq_true. }
  by apply (create_product_duplicate _ _ kv).
Qed.

Lemma update_row_sku u p p' :
  update_row u p = Some p' -> Product.sku p' = Product.sku p.
Proof.
  unfold update_row. intros H.
  repeat match type of H with
         | (?x ≫= _) = _ => destruct x eqn:?; cbn in H; [|done]
         end.
  by injection H as <-.
Qed.

(** The product table after a request: untouched, one row added under a
    new SKU, one row replaced by a row with the same SKU, or one row
    removed. *)
Lemma handle_products now r db :
  products (handle now r db) = products db \/
  (exists payload,
     fetchone (fun kv : Z * Product.t =>
                 bool_decide (Product.sku kv.2 = ProductCreate.sku payload))
              (products db) = None /\
     products (handle now r db) =
       <[next_rowid (seq_products db) (products db) :=
           product_values payload]> (products db)) \/
  (exists k row row',
     products db !! k = Some row /\ Product.sku row' = Product.sku row /\
     products (handle now r db) = <[k := row']> (products db)) \/
  (exists k, products (handle now r db) = delete k (products db)).
Proof.
  destruct r; cbn [handle]; try by left.
  - left. unfold create_supplier. cbn. by rewrite lookup_insert_eq.
  - left. unfold create_category.
    destruct (fetchone _ (categories db)); [done|].
    cbn [categories]. by destruct (fetchone _ _).
  - destruct (fetchone (fun kv : Z * Product.t =>
                 bool_decide (Product.sku kv.2 = ProductCreate.sku payload))
                (products db)) as [kv|] eqn:E.
    + left. by rewrite (create_product_duplicate _ _ _ E).
    + right; left. exists payload. split; [done|].
      by rewrite (create_product_fresh _ _ E).
  - unfold update_product.
    destruct (products db !! product_id) as [row|] eqn:Hrow; [|by left].
    destruct (ProductUpdate.is_empty payload); [by left|].
    destruct (update_row payload row) as [row'|] eqn:Hup; [|by left].
    right; right; left. exists product_id, row, row'.
    split_and!; [done|by eapply update_row_sku|].
    cbn [products]. by rewrite lookup_insert_eq.
  - unfold delete_product.
    destruct (products db !! product_id) as [row|] eqn:Hrow; [|by left].
    right; right; right. by exists product_id.
  - destruct (create_movement_cases now payload db)
      as [[_ E]|[(prod & _ & _ & E)|(prod & Hprod & Hq & _)]].
    + left. by rewrite E.
    + left. by rewrite E.
    + right; right; left.
      exists (MovementCreate.product_id payload), prod,
        (Product.set_quantity
           (Product.quantity prod + MovementCreate.change payload) prod).
      split_and!; [done|done|].
      by rewrite (create_movement_success _ _ _ _ Hprod Hq).
Qed.

Lemma handle_sku_unique now r db :
  sku_unique db -> sku_unique (handle now r db).
Proof.
  intros Hu k1 k2 p1 p2.
  destruct (handle_products now r db)
    as [->|[(payload & E & ->)|[(k & row & row' & Hrow & Hsku & ->)|[k ->]]]].
  - apply Hu.
  - rewrite !lookup_insert.
    repeat case_decide; intros H1 H2 Hs; simplify_eq; try done.
    + pose proof (fetchone_None _ _ _ _ E H2) as Hc.
      apply bool_decide_eq_false in Hc. cbn in *. congruence.
    + pose proof (fetchone_None _ _ _ _ E H1) as Hc.
      apply bool_decide_eq_false in Hc. cbn in *. congruence.
    + eauto.
  - rewrite !lookup_insert.
    repeat case_decide; intros H1 H2 Hs; simplify_eq; try done.
    + apply (Hu _ _ _ _ Hrow H2). congruence.
    + apply (Hu _ _ _ _ H1 Hrow). congruence.
    + eauto.
  - rewrite !lookup_delete.
    repeat case_decide; intros H1 H2 Hs; simplify_eq. eauto.
Qed.

(** X8: SKUs stay unique: in every database the API can reach from an
    empty file, two product rows with the same SKU are the same row. *)
Theorem sku_stays_unique db : reachable db -> sku_unique db.
Proof.
  intros [h ->].
  assert (forall db, sku_unique db -> sku_unique (run h db)) as Hrun.
  { induction h as [|[now r] h IH]; intros db Hdb; [done|].
    cbn. by apply IH, handle_sku_unique. }
  apply Hrun. intros k1 k2 p1 p2. cbn. by rewrite lookup_empty.
Qed.

Lemma create_category_cases payload db :
  let by_name := fun kv : Z * Category.t =>
    bool_decide (Category.name kv.2 = Category.name payload) in
  (exists kv, fetchone by_name (categories db) = Some kv /\
     create_category payload db =
       (Raise (HTTPException 400 "Category name already exists"), db)) \/
  (fetchone by_name (categories db) = None /\
   create_category payload db =
     (Ok (CategoryRead.mk (next_rowid (seq_categories db) (categories db))
            payload),
      mkDB (suppliers db)
           (<[next_rowid (seq_categories db) (categories db) := payload]>
              (categories db))
           (products db) (inventory_movements db) (seq_suppliers db)
           (next_rowid (seq_categories db) (categories db))
           (seq_products db) (seq_movements db))).
Proof.
  intros by_name. unfold create_category. fold by_name.
  destruct (fetchone by_name (categories db)) as [kv|] eqn:E; [left; eauto|].
  right. split; [done|]. cbn [categories].
  rewrite fetchone_inserted; [done..|]. by apply bool_decide_eq_true.
Qed.

(** X9: [create_category] refuses a name that some category row already
    carries: it answers 400 "Category name already exists" and writes
    nothing. *)
Theorem duplicate_category_rejected payload db k c :
  categories db !! k = Some c ->
  Category.name c = Category.name payload ->
  create_category payload db =
    (Raise (HTTPException 400 "Category name already exists"), db).
Proof.
  intros Hk Hname.
  destruct (create_category_cases payload db) as [(kv & _ & E)|[E _]]; [done|].
  pose proof (fetchone_None _ _ _ _ E Hk) as Hc.
  apply bool_decide_eq_false in Hc. done.
Qed.

Lemma effect_categories now r db db' :
  effect now r db db' ->
  (forall payload, r <> POST_categories payload) ->
  categories db' = categories db.
Proof. intros Heff Hr. destruct Heff; try done. by destruct (Hr payload). Qed.

Lemma handle_categories now r db :
  categories (handle now r db) = categories db \/
  (exists payload,
     fetchone (fun kv : Z * Category.t =>
                 bool_decide (Category.name kv.2 = Category.name payload))
              (categories db) = None /\
     categories (handle now r db) =
       <[next_rowid (seq_categories db) (categories db) := payload]>
         (categories db)).
Proof.
  assert ((exists payload, r = POST_categories payload) \/
          (forall payload, r <> POST_categories payload)) as [[payload ->]|Hr]
    by (destruct r; eauto).
  - cbn [handle].
    destruct (create_category_cases payload db) as [(kv & _ & E)|[E1 E2]].
    + left. by rewrite E.
    + right. exists payload. split; [done|]. by rewrite E2.
  - left. by apply (effect_categories now r); [apply handle_effect|].
Qed.

(** X10: category names stay unique: in every database the API can reach
    from an empty file, two category rows with the same name are the same
    row. *)
Theorem category_names_stay_unique db :
  reachable db -> category_names_unique db.
Proof.
  intros [h ->].
  assert (forall db, category_names_unique db ->
                     category_names_unique (run h db)) as Hrun.
  { induction h as [|[now r] h IH]; intros db Hdb; [done|].
    cbn. apply IH. intros k1 k2 c1 c2.
    destruct (handle_categories now r db) as [->|(payload & E & ->)];
      [apply Hdb|].
    rewrite !lookup_insert.
    repeat case_decide; intros H1 H2 Hs; simplify_eq; try done.
    + pose proof (fetchone_None _ _ _ _ E H2) as Hc.
      apply bool_decide_eq_false in Hc. cbn in *. congruence.
    + pose proof (fetchone_None _ _ _ _ E H1) as Hc.
      apply bool_decide_eq_false in Hc. cbn in *. congruence.
    + eauto. }
  apply Hrun. intros k1 k2 c1 c2. cbn. by rewrite lookup_empty.
Qed.

(** ** Failures *)


(** X12: every handler that is given the id of a product that is not
    there answers 404 "Product not found" and writes nothing. *)
Theorem missing_product_is_404 now product_id db u reason change reference :
  products db !! product_id = None ->
  get_product product_id db = Raise (HTTPException 404 "Product not found") /\
  update_product product_id u db =
    (Raise (HTTPException 404 "Product not found"), db) /\
  delete_product product_id db =
    (Raise (HTTPException 404 "Product not found"), db) /\
  create_movement now (MovementCreate.mk product_id change reason reference) db =
    (Raise (HTTPException 404 "Product not found"), db).
Proof.
  intros Hnone.
  unfold get_product, update_product, delete_product, create_movement.
  cbn [MovementCreate.product_id]. by rewrite Hnone.
Qed.

(** ** Creating, reading and deleting products *)

Lemma max_rowid_nonneg {A} (t : gmap Z A) : 0 <= max_rowid t.
Proof.
  unfold max_rowid.
  apply (map_fold_weak_ind (fun r _ => 0 <= r)); [done|]. intros. lia.
Qed.

Lemma next_rowid_pos {A} seq (t : gmap Z A) : 0 < next_rowid seq t.
Proof. pose proof (max_rowid_nonneg t). unfold next_rowid. lia. Qed.

(** X13: [create_product] under a SKU no row carries succeeds; it stores
    the payload under a new positive id, answers with the payload's fields
    and that id, and [get_product] on that id answers the same. *)
Theorem create_then_get payload db :
  (forall k p, products db !! k = Some p ->
               Product.sku p <> ProductCreate.sku payload) ->
  exists id db',
    let r :=
      ProductRead.mk id (ProductCreate.sku payload)
        (ProductCreate.name payload) (ProductCreate.description payload)
        (ProductCreate.price payload) (ProductCreate.cost payload)
        (ProductCreate.quantity payload) (ProductCreate.reorder_level payload)
        (ProductCreate.is_active payload) (ProductCreate.category_id payload)
        (ProductCreate.supplier_id payload) in
    create_product payload db = (Ok r, db') /\
    0 < id /\
    products db !! id = None /\
    get_product id db' = Ok r /\
    (forall k, k <> id -> products db' !! k = products db !! k).
Proof.
  intros Hfree.
  assert (fetchone (fun kv : Z * Product.t =>
             bool_decide (Product.sku kv.2 = ProductCreate.sku payload))
            (products db) = None) as E.
  { apply fetchone_is_None. intros k p Hk. apply bool_decide_eq_false.
    by apply (Hfree k). }
  exists (next_rowid (seq_products db) (products db)),
    (create_product payload db).2.
  cbn zeta. rewrite (create_product_fresh _ _ E). cbn [snd].
  split_and!.
  - unfold product_read, product_values. cbn.
    by destruct (ProductCreate.is_active payload).
  - apply next_rowid_pos.
  - apply next_rowid_fresh.
  - unfold get_product. cbn [products]. rewrite lookup_insert_eq.
    unfold product_read, product_values. cbn.
    by destruct (ProductCreate.is_active payload).
  - intros k Hk. cbn [products]. by rewrite lookup_insert_ne.
Qed.

(** X14: after a successful [delete_product] the product is gone for good:
    [get_product] and a second [delete_product] on the same id answer 404,
    and the second delete writes nothing. *)
Theorem delete_then_gone product_id db r db' :
  delete_product product_id db = (Ok r, db') ->
  get_product product_id db' =
    Raise (HTTPException 404 "Product not found") /\
  delete_product product_id db' =
    (Raise (HTTPException 404 "Product not found"), db').
Proof.
  unfold delete_product at 1.
  destruct (products db !! product_id); [|done]. intros [= <- <-].
  unfold get_product, delete_product. cbn [products].
  by rewrite lookup_delete_eq.
Qed.

Lemma effect_seq_products now r db db' :
  effect now r db db' -> seq_products db <= seq_products db'.
Proof.
  destruct 1; cbn [seq_products]; try lia.
  pose proof (next_rowid_gt_seq (seq_products db) (products db)). lia.
Qed.

Lemma run_seq_products h : forall db, seq_products db <= seq_products (run h db).
Proof.
  induction h as [|[now r] h IH]; intros db; [done|].
  cbn. etrans; [|apply IH]. apply (effect_seq_products now r), handle_effect.
Qed.

Lemma create_product_id payload db r db' :
  create_product payload db = (Ok r, db') ->
  ProductRead.id r = next_rowid (seq_products db) (products db).
Proof.
  destruct (fetchone (fun kv : Z * Product.t =>
              bool_decide (Product.sku kv.2 = ProductCreate.sku payload))
             (products db)) as [kv|] eqn:E.
  - by rewrite (create_product_duplicate _ _ _ E).
  - rewrite (create_product_fresh _ _ E). by intros [= <- _].
Qed.

(** X15: product ids are never reused.  Whatever happens after a product
    was seen under some id, deletes included, a product created later gets
    a larger id. *)
Theorem product_ids_never_reused h1 h2 product_id p payload r db' :
  products (run h1 init_db) !! product_id = Some p ->
  create_product payload (run h2 (run h1 init_db)) = (Ok r, db') ->
  product_id < ProductRead.id r.
Proof.
  intros Hp Hcreate. rewrite (create_product_id _ _ _ _ Hcreate).
  pose proof (products_issued _ (run_consistent h1 _ consistent_init) _ _ Hp).
  pose proof (run_seq_products h2 (run h1 init_db)).
  pose proof (next_rowid_gt_seq (seq_products (run h2 (run h1 init_db)))
                (products (run h2 (run h1 init_db)))).
  lia.
Qed.

(** X16: a product that has just been created has no movements, also when
    products with movements were deleted before: [list_movements] for its
    id is empty. *)
Theorem new_product_has_no_movements now days payload db r db' :
  reachable db ->
  create_product payload db = (Ok r, db') ->
  list_movements now (Some (ProductRead.id r)) days db' = [].
Proof.
  intros [h ->] Hcreate. apply elem_of_nil_inv. intros x Hx.
  apply list_movements_elem_of in Hx as (k & m & Hk & _ & Hpid & _).
  pose proof (create_product_id _ _ _ _ Hcreate) as Hid.
  pose proof (next_rowid_pos (seq_products (run h init_db))
                (products (run h init_db))) as Hpos.
  pose proof (next_rowid_gt_seq (seq_products (run h init_db))
                (products (run h init_db))) as Hgt.
  specialize (Hpid _ eq_refl). rewrite Hid in Hpid.
  assert (inventory_movements db' = inventory_movements (run h init_db)) as Hm.
  { destruct (fetchone (fun kv : Z * Product.t =>
                bool_decide (Product.sku kv.2 = ProductCreate.sku payload))
               (products (run h init_db))) as [kv|] eqn:E.
    - by rewrite (create_product_duplicate _ _ _ E) in Hcreate.
    - rewrite (create_product_fresh _ _ E) in Hcreate. by injection Hcreate as _ <-. }
  rewrite Hm in Hk.
  pose proof (movements_issued _ (run_consistent h _ consistent_init) _ _ Hk).
  lia.
Qed.

(** ** References from movements to products *)

Lemma effect_movements_resolve now r db db' :
  effect now r db db' -> ~ is_delete r ->
  movements_resolve db -> movements_resolve db'.
Proof.
  unfold movements_resolve.
  intros Heff Hr Hdb. destruct Heff; try done;
    cbn [products inventory_movements]; intros i m.
  - intros Hi. rewrite lookup_insert. case_decide; eauto.
  - intros Hi. rewrite lookup_insert. case_decide; eauto.
  - rewrite !lookup_insert. repeat case_decide; intros Hi; simplify_eq; eauto.
Qed.

(** X17: as long as no product is deleted, every movement row refers to a
    product row that exists. *)
Theorem movements_resolve_without_delete h :
  Forall (fun c : Z * Request => ~ is_delete c.2) h ->
  movements_resolve (run h init_db).
Proof.
  assert (forall db, Forall (fun c : Z * Request => ~ is_delete c.2) h ->
                     movements_resolve db -> movements_resolve (run h db))
    as Hrun.
  { induction h as [|[now r] h IH]; intros db Hh Hdb; [done|].
    apply Forall_cons in Hh as [Hr Hh]. cbn. apply IH; [done|].
    eapply effect_movements_resolve; [apply handle_effect|done..]. }
  intros Hh. apply Hrun; [done|].
  intros i m. cbn. by rewrite lookup_empty.
Qed.

Lemma movements_resolve_without_delete_witness :
  movements_resolve
    (run [(0, POST_products Sample.widget);
          (1000, POST_movements Sample.sale);
          (2000, PATCH_product 1 (Sample.set_stock 0))] init_db).
Proof.
  apply (movements_resolve_without_delete
           [(0, POST_products Sample.widget);
            (1000, POST_movements Sample.sale);
            (2000, PATCH_product 1 (Sample.set_stock 0))]).
  repeat constructor; cbn; tauto.
Defined.


Lemma top_groups_elem now days limit db g :
  g ∈ top_groups now days limit db ->
  g.1 ∈ Movement.product_id <$> in_window (now - timedelta_days days) db /\
  g.2 = moved_in g.1 (in_window (now - timedelta_days days) db).
Proof.
  unfold top_groups. intros Hg.
  destruct (sql_limit_split limit
              (merge_sort moved_desc
                 (map_to_list
                    (group_moved (in_window (now - timedelta_days days) db)))))
    as (rest & Hsplit & _).
  assert (g ∈ map_to_list
                (group_moved (in_window (now - timedelta_days days) db)))
    as Hin.
  { rewrite <- (merge_sort_Permutation moved_desc). rewrite Hsplit.
    apply elem_of_app. by left. }
  destruct g as [pid moved]. by apply group_moved_elem in Hin.
Qed.

Lemma top_groups_length now days limit db :
  length (top_groups now days limit db) =
  if limit <? 0
  then length (remove_dups
                 (Movement.product_id
                    <$> in_window (now - timedelta_days days) db))
  else (Z.to_nat limit
          `min` length (remove_dups
                          (Movement.product_id
                             <$> in_window (now - timedelta_days days) db)))%nat.
Proof.
  unfold top_groups. rewrite sql_limit_length.
  rewrite (Permutation_length (merge_sort_Permutation moved_desc _)).
  by rewrite group_moved_count.
Qed.



(** ** Partial update *)

Lemma set_not_null_patched {A} (sent : option (option A)) (old new : A) :
  set_not_null sent old = Some new -> patched_not_null sent old new.
Proof.
  unfold patched_not_null. destruct sent as [[v|]|]; cbn; intros [= <-];
    split_and!; try done; by intros ? [= <-].
Qed.

Lemma set_nullable_patched {A} (sent : option (option A)) (old : option A) :
  patched_nullable sent old (set_nullable sent old).
Proof.
  unfold patched_nullable. destruct sent as [v|]; cbn; split; try done.
  by intros ? [= <-].
Qed.

Lemma update_product_ok product_id payload db r db' :
  update_product product_id payload db = (Ok r, db') ->
  exists row row',
    products db !! product_id = Some row /\
    update_row payload row = Some row' /\
    r = product_read (product_id, row') /\
    db' = mkDB (suppliers db) (categories db)
               (<[product_id := row']> (products db))
               (inventory_movements db) (seq_suppliers db)
               (seq_categories db) (seq_products db) (seq_movements db).
Proof.
  unfold update_product.
  destruct (products db !! product_id) as [row|] eqn:Hrow; [|done].
  destruct (ProductUpdate.is_empty payload) eqn:Hempty.
  - intros [= <- <-]. exists row, row. split_and!; try done.
    + by destruct payload as [[|] [|] [|] [|] [|] [|] [|] [|] [|]], row.
    + destruct db. cbn in *. f_equal. symmetry. by apply insert_id.
  - destruct (update_row payload row) as [row'|] eqn:Hup; [|done].
    cbn [products]. rewrite lookup_insert_eq. intros [= <- <-]. eauto 10.
Qed.

(** X19: a successful [update_product] changes the columns the payload
    sends and no other: id and SKU stay; every other column keeps its value
    when not sent and takes the sent value otherwise, [is_active] sent as
    null being stored as inactive.  Other product rows and the movement
    table are untouched. *)
Theorem update_product_patches product_id payload db r db' :
  update_product product_id payload db = (Ok r, db') ->
  exists row,
    products db !! product_id = Some row /\
    get_product product_id db' = Ok r /\
    ProductRead.id r = product_id /\
    ProductRead.sku r = Product.sku row /\
    patched_not_null (ProductUpdate.name payload)
      (Product.name row) (ProductRead.name r) /\
    patched_nullable (ProductUpdate.description payload)
      (Product.description row) (ProductRead.description r) /\
    patched_not_null (ProductUpdate.price payload)
      (Product.price row) (ProductRead.price r) /\
    patched_not_null (ProductUpdate.cost payload)
      (Product.cost row) (ProductRead.cost r) /\
    patched_not_null (ProductUpdate.quantity payload)
      (Product.quantity row) (ProductRead.quantity r) /\
    patched_not_null (ProductUpdate.reorder_level payload)
      (Product.reorder_level row) (ProductRead.reorder_level r) /\
    ProductRead.is_active r =
      match ProductUpdate.is_active payload with
      | None => truthy (Product.is_active row)
      | Some None => false
      | Some (Some b) => b
      end /\
    patched_nullable (ProductUpdate.category_id payload)
      (Product.category_id row) (ProductRead.category_id r) /\
    patched_nullable (ProductUpdate.supplier_id payload)
      (Product.supplier_id row) (ProductRead.supplier_id r) /\
    (forall k, k <> product_id -> products db' !! k = products db !! k) /\
    inventory_movements db' = inventory_movements db.
Proof.
  intros Hup.
  apply update_product_ok in Hup as (row & row' & Hrow & Hrow' & -> & ->).
  exists row. unfold update_row in Hrow'.
  destruct (set_not_null (ProductUpdate.name payload) (Product.name row))
    as [n|] eqn:Hn; [|done].
  destruct (set_not_null (ProductUpdate.price payload) (Product.price row))
    as [pr|] eqn:Hpr; [|done].
  destruct (set_not_null (ProductUpdate.cost payload) (Product.cost row))
    as [c|] eqn:Hc; [|done].
  destruct (set_not_null (ProductUpdate.quantity payload) (Product.quantity row))
    as [q|] eqn:Hq; [|done].
  destruct (set_not_null (ProductUpdate.reorder_level payload)
              (Product.reorder_level row)) as [rl|] eqn:Hrl; [|done].
  cbn in Hrow'. injection Hrow' as <-.
  unfold get_product. cbn [products]. rewrite lookup_insert_eq.
  cbn -[truthy].
  split_and!; try done; try (by apply set_not_null_patched);
    try apply set_nullable_patched.
  - by destruct (ProductUpdate.is_active payload) as [[[|]|]|].
  - intros k Hk. by rewrite lookup_insert_ne.
Qed.

Lemma update_product_patches_witness :
  exists row,
    products Sample.db_widget !! 1 = Some row /\
    Product.quantity row = 10.
Proof.
  destruct (update_product_patches 1 (Sample.set_stock 0) Sample.db_widget
              (product_read (1, Product.set_quantity 0 Sample.widget_row))
              (update_product 1 (Sample.set_stock 0) Sample.db_widget).2
              eq_refl)
    as (row & Hrow & _).
  exists row. split; [exact Hrow|].
  vm_compute in Hrow. by injection Hrow as <-.
Defined.



Lemma set_not_null_again {A} (sent : option (option A)) (old new : A) :
  set_not_null sent old = Some new -> set_not_null sent new = Some new.
Proof. destruct sent as [[v|]|]; cbn; congruence. Qed.

Lemma update_row_again u p p' :
  update_row u p = Some p' -> update_row u p' = Some p'.
Proof.
  unfold update_row. intros H.
  destruct (set_not_null (ProductUpdate.name u) _) eqn:Hn; [|done].
  destruct (set_not_null (ProductUpdate.price u) _) eqn:Hp; [|done].
  destruct (set_not_null (ProductUpdate.cost u) _) eqn:Hc; [|done].
  destruct (set_not_null (ProductUpdate.quantity u) _) eqn:Hq; [|done].
  destruct (set_not_null (ProductUpdate.reorder_level u) _) eqn:Hr; [|done].
  cbn in H. injection H as <-. cbn.
  rewrite (set_not_null_again _ _ _ Hn), (set_not_null_again _ _ _ Hp),
    (set_not_null_again _ _ _ Hc), (set_not_null_again _ _ _ Hq),
    (set_not_null_again _ _ _ Hr).
  cbn. do 2 f_equal.
  - by destruct (ProductUpdate.description u).
  - by destruct (ProductUpdate.is_active u) as [[[|]|]|].
  - by destruct (ProductUpdate.category_id u).
  - by destruct (ProductUpdate.supplier_id u).
Qed.

(** X21: [update_product] is idempotent: sending the same payload again
    after a success gives the same answer and leaves the database as the
    first call left it. *)
Theorem update_product_idempotent product_id payload db r db' :
  update_product product_id payload db = (Ok r, db') ->
  update_product product_id payload db' = (Ok r, db').
Proof.
  intros Hup.
  apply update_product_ok in Hup as (row & row' & Hrow & Hrow' & -> & ->).
  unfold update_product. cbn [products]. rewrite lookup_insert_eq.
  rewrite (update_row_again _ _ _ Hrow').
  destruct (ProductUpdate.is_empty payload); [done|].
  cbn [products suppliers categories inventory_movements seq_suppliers
       seq_categories seq_products seq_movements].
  by rewrite insert_insert_eq, lookup_insert_eq.
Qed.

Lemma update_product_idempotent_witness :
  update_product 1 (Sample.set_stock 0)
    (update_product 1 (Sample.set_stock 0) Sample.db_widget).2 =
  (Ok (product_read (1, Product.set_quantity 0 Sample.widget_row)),
   (update_product 1 (Sample.set_stock 0) Sample.db_widget).2).
Proof.
  apply (update_product_idempotent 1 (Sample.set_stock 0) Sample.db_widget).
  reflexivity.
Defined.

(** ** Batches of movements *)

Lemma create_movement_ok now payload db r db' :
  create_movement now payload db = (Ok r, db') ->
  exists prod,
    products db !! MovementCreate.product_id payload = Some prod /\
    0 <= Product.quantity prod + MovementCreate.change payload /\
    products db' =
      <[MovementCreate.product_id payload :=
          Product.set_quantity
            (Product.quantity prod + MovementCreate.change payload) prod]>
        (products db) /\
    inventory_movements db' =
      <[MovementRead.id r :=
          Movement.mk (MovementCreate.product_id payload)
            (MovementCreate.change payload) (MovementCreate.reason payload)
            (MovementCreate.reference payload) now]>
        (inventory_movements db) /\
    inventory_movements db !! MovementRead.id r = None /\
    r = movement_read
          (MovementRead.id r,
           Movement.mk (MovementCreate.product_id payload)
             (MovementCreate.change payload) (MovementCreate.reason payload)
             (MovementCreate.reference payload) now).
Proof.
  intros Hcall.
  destruct (create_movement_cases now payload db)
    as [[_ E]|[(prod & _ & _ & E)|(prod & Hprod & Hq & _)]];
    [by rewrite E in Hcall..|].
  rewrite (create_movement_success _ _ _ _ Hprod Hq) in Hcall.
  injection Hcall as <- <-. exists prod. cbn. split_and!; try done.
  apply next_rowid_fresh.
Qed.






(** ** Valuation against the ledger *)

Lemma stock_total_fold db :
  Valuation.total_quantity (stock_valuation db) = total_on_hand db.
Proof.
  unfold stock_valuation, total_on_hand, rows.
  cbn [Valuation.total_quantity].
  by rewrite map_fold_foldr, sql_sum_int_or_0, foldr_rows_int.
Qed.

Lemma quantity_fold_insert (t : gmap Z Product.t) k p :
  t !! k = None ->
  map_fold (fun _ p acc => Product.quantity p + acc) 0 (<[k := p]> t) =
  Product.quantity p + map_fold (fun _ p acc => Product.quantity p + acc) 0 t.
Proof.
  intros Hk. rewrite map_fold_insert_L; [done| |done]. intros. lia.
Qed.

Lemma quantity_fold_replace (t : gmap Z Product.t) k p p' :
  t !! k = Some p ->
  map_fold (fun _ p acc => Product.quantity p + acc) 0 (<[k := p']> t) =
  Product.quantity p' - Product.quantity p
  + map_fold (fun _ p acc => Product.quantity p + acc) 0 t.
Proof.
  intros Hk. rewrite <- (insert_delete_id t k p Hk) at 2.
  rewrite <- (insert_delete_eq t k p').
  rewrite !quantity_fold_insert by apply lookup_delete_eq. lia.
Qed.

(** X24: a successful [create_movement] shifts the total quantity that
    [stock_valuation] reports by exactly the movement's change. *)
Theorem movement_shifts_total now payload db r db' :
  create_movement now payload db = (Ok r, db') ->
  Valuation.total_quantity (stock_valuation db') =
  Valuation.total_quantity (stock_valuation db) + MovementCreate.change payload.
Proof.
  intros Hcall.
  apply create_movement_ok in Hcall as (prod & Hprod & _ & Hps & _).
  rewrite !stock_total_fold. unfold total_on_hand. rewrite Hps.
  rewrite (quantity_fold_replace _ _ _ _ Hprod), quantity_set_quantity. lia.
Qed.

Lemma movement_shifts_total_witness :
  Valuation.total_quantity (stock_valuation Sample.db_sold) =
  Valuation.total_quantity (stock_valuation Sample.db_widget) + -3.
Proof.
  apply (movement_shifts_total 1000 Sample.sale Sample.db_widget
           (movement_read (1, Movement.mk 1 (-3) "sale" None 1000))
           Sample.db_sold).
  reflexivity.
Defined.

(** X25: a successful [delete_product] lowers the total quantity that
    [stock_valuation] reports by the quantity the product had on hand. *)
Theorem delete_lowers_total product_id db r db' row :
  products db !! product_id = Some row ->
  delete_product product_id db = (Ok r, db') ->
  Valuation.total_quantity (stock_valuation db') =
  Valuation.total_quantity (stock_valuation db) - Product.quantity row.
Proof.
  intros Hrow. unfold delete_product. rewrite Hrow. intros [= _ <-].
  rewrite !stock_total_fold. unfold total_on_hand. cbn [products].
  rewrite <- (insert_delete_id (products db) product_id row Hrow) at 2.
  rewrite quantity_fold_insert by apply lookup_delete_eq. lia.
Qed.

Lemma delete_lowers_total_witness :
  Valuation.total_quantity
    (stock_valuation (delete_product 1 Sample.db_sold).2) =
  Valuation.total_quantity (stock_valuation Sample.db_sold)
  - Product.quantity (Product.set_quantity 7 Sample.widget_row).
Proof.
  apply (delete_lowers_total 1 Sample.db_sold "deleted").
  - reflexivity.
  - reflexivity.
Defined.

(** ** More on the analytics *)

Lemma low_stock_elem_of threshold db r :
  r ∈ low_stock threshold db <->
  exists k p, products db !! k = Some p /\ is_low threshold p /\
              r = product_read (k, p).
Proof. rewrite low_stock_unfold. apply select_fmap_elem_of. Qed.

(** X26: raising the threshold of [low_stock] never drops a product: what
    is listed under a threshold is listed under every larger one. *)
Theorem low_stock_monotone t t' db r :
  t <= t' ->
  r ∈ low_stock (Some t) db -> r ∈ low_stock (Some t') db.
Proof.
  intros Hle. rewrite !low_stock_elem_of.
  intros (k & p & Hk & [Hact Hq] & ->). exists k, p.
  split_and!; try done. split; [done|]. cbn in *. lia.
Qed.

Lemma low_stock_monotone_witness :
  product_read (1, Product.set_quantity 7 Sample.widget_row)
    ∈ low_stock (Some 9) Sample.db_sold.
Proof.
  apply (low_stock_monotone 7 9 Sample.db_sold).
  - lia.
  - vm_compute. apply list_elem_of_here.
Defined.



Lemma annotate_Some db g t :
  annotate db g = Some t ->
  TopMover.product_id t = g.1 /\ TopMover.moved t = g.2 /\
  exists p, products db !! g.1 = Some p /\
            TopMover.sku t = Product.sku p /\
            TopMover.name t = Product.name p.
Proof.
  unfold annotate. destruct (products db !! g.1) as [p|] eqn:E; [|done].
  rewrite int_or_0_Some. intros [= <-]. cbn. split_and!; [done..|].
  by exists p.
Qed.

Lemma omap_annotate_sublist db l :
  TopMover.product_id <$> omap (annotate db) l `sublist_of` l.*1.
Proof.
  induction l as [|g l IH]; [done|]. cbn.
  destruct (annotate db g) as [t|] eqn:E; cbn.
  - apply annotate_Some in E as [-> _]. by apply sublist_skip.
  - by apply sublist_cons.
Qed.

Lemma omap_annotate_sorted db l :
  StronglySorted moved_desc l ->
  StronglySorted (fun a b => TopMover.moved b <= TopMover.moved a)
    (omap (annotate db) l).
Proof.
  induction 1 as [|g l Hl IH Hall]; [constructor|]. cbn.
  destruct (annotate db g) as [t|] eqn:E; [|done].
  constructor; [done|]. apply Forall_forall. intros t' Ht'.
  apply list_elem_of_omap in Ht' as (g' & Hg' & E').
  rewrite Forall_forall in Hall. specialize (Hall g' Hg').
  apply annotate_Some in E as (_ & -> & _).
  apply annotate_Some in E' as (_ & -> & _). done.
Qed.

Lemma top_groups_sorted now days limit db :
  StronglySorted moved_desc (top_groups now days limit db) /\
  NoDup (top_groups now days limit db).*1.
Proof.
  unfold top_groups.
  set (sorted := merge_sort moved_desc _).
  destruct (sql_limit_split limit sorted) as (rest & Hsplit & _).
  assert (StronglySorted moved_desc sorted) as Hsorted
    by (apply StronglySorted_merge_sort; apply _).
  assert (NoDup sorted.*1) as Hnd.
  { unfold sorted. rewrite merge_sort_Permutation.
    apply NoDup_fst_map_to_list. }
  rewrite Hsplit in Hsorted. rewrite Hsplit, fmap_app in Hnd.
  split; [by apply StronglySorted_app_1_l in Hsorted|].
  by apply NoDup_app in Hnd as [? _].
Qed.

Lemma moved_in_nonneg pid ms : 0 <= moved_in pid ms.
Proof.
  induction ms as [|m ms IH]; [done|].
  rewrite moved_in_cons. case_decide; lia.
Qed.

(** X28: whatever the database, the entries of [top_movers] name distinct
    products that exist, carry that product's current SKU and name and a
    non-negative amount, come in descending order of amount, and number at
    most [limit] when [limit] is not negative. *)
Theorem top_movers_shape now days limit db :
  NoDup (TopMover.product_id <$> top_movers now days limit db) /\
  StronglySorted (fun a b => TopMover.moved b <= TopMover.moved a)
    (top_movers now days limit db) /\
  Forall (fun t =>
            0 <= TopMover.moved t /\
            exists p, products db !! TopMover.product_id t = Some p /\
                      TopMover.sku t = Product.sku p /\
                      TopMover.name t = Product.name p)
         (top_movers now days limit db) /\
  (0 <= limit ->
   (length (top_movers now days limit db) <= Z.to_nat limit)%nat).
Proof.
  unfold top_movers.
  destruct (top_groups_sorted now days limit db) as [Hsorted Hnd].
  split_and!.
  - eapply sublist_NoDup; [exact Hnd|apply omap_annotate_sublist].
  - by apply omap_annotate_sorted.
  - apply Forall_forall. intros t Ht.
    apply list_elem_of_omap in Ht as (g & Hg & E).
    apply top_groups_elem in Hg as [_ Hmoved].
    apply annotate_Some in E as (Hid & Hm & p & Hp & Hsku & Hname).
    split; [rewrite Hm, Hmoved; apply moved_in_nonneg|].
    exists p. by rewrite Hid.
  - intros Hlimit.
    etrans; [rewrite <- (length_fmap TopMover.product_id);
             apply sublist_length, omap_annotate_sublist|].
    rewrite length_fmap, top_groups_length.
    destruct (Z.ltb_spec limit 0); lia.
Qed.

(** ** Suppliers *)

(** X29: [create_supplier] always succeeds, stores the payload under an id
    no supplier had, and the new supplier heads [list_suppliers], the
    suppliers listed before following it unchanged. *)
Theorem new_supplier_listed_first payload db :
  exists id db',
    create_supplier payload db = (Ok (SupplierRead.mk id payload), db') /\
    suppliers db !! id = None /\
    list_suppliers db' = SupplierRead.mk id payload :: list_suppliers db.
Proof.
  exists (next_rowid (seq_suppliers db) (suppliers db)),
    (create_supplier payload db).2.
  set (id := next_rowid (seq_suppliers db) (suppliers db)).
  assert (suppliers db !! id = None) as Hfresh by apply next_rowid_fresh.
  assert (create_supplier payload db =
          (Ok (SupplierRead.mk id payload),
           mkDB (<[id := payload]> (suppliers db)) (categories db)
                (products db) (inventory_movements db) id (seq_categories db)
                (seq_products db) (seq_movements db))) as E.
  { unfold create_supplier. fold id. cbn [suppliers].
    by rewrite lookup_insert_eq. }
  rewrite E. split_and!; [done..|].
  unfold list_suppliers. cbn [snd suppliers].
  change (SupplierRead.mk id payload) with (supplier_read (id, payload)).
  rewrite <- fmap_cons. f_equal.
  apply (StronglySorted_unique_strong id_desc).
  - intros [k1 x1] [k2 x2] H1 H2 Hle1 Hle2. unfold id_desc in *. cbn in *.
    assert (k1 = k2) as -> by lia. f_equal.
    rewrite merge_sort_Permutation in H1. apply elem_of_map_to_list in H1.
    apply elem_of_cons in H2 as [[= -> ->]|H2].
    + by rewrite lookup_insert_eq in H1; injection H1.
    + rewrite merge_sort_Permutation in H2. apply elem_of_map_to_list in H2.
      rewrite lookup_insert_ne in H1 by (intros <-; congruence). congruence.
  - apply StronglySorted_merge_sort; apply _.
  - constructor; [apply StronglySorted_merge_sort; apply _|].
    apply Forall_forall. intros [k x] Hin.
    rewrite merge_sort_Permutation in Hin. apply elem_of_map_to_list in Hin.
    unfold id_desc. cbn.
    pose proof (max_rowid_ge _ _ _ Hin). unfold id, next_rowid. lia.
  - rewrite !merge_sort_Permutation. unfold rows.
    by apply map_to_list_insert.
Qed.

(** ** LIKE and case *)

Lemma lower_lower c : lower (lower c) = lower c.
Proof. by destruct c as [[] [] [] [] [] [] [] []]. Qed.

Lemma lower_percent c : Ascii.eqb (lower c) "%" = Ascii.eqb c "%".
Proof. by destruct c as [[] [] [] [] [] [] [] []]. Qed.

Lemma lower_underscore c : Ascii.eqb (lower c) "_" = Ascii.eqb c "_".
Proof. by destruct c as [[] [] [] [] [] [] [] []]. Qed.

Lemma like_char_unfold p pat text :
  Ascii.eqb p "%" = false ->
  like (String p pat) text =
  match text with
  | EmptyString => false
  | String c t =>
      (Ascii.eqb p "_" || Ascii.eqb (lower p) (lower c)) && like pat t
  end.
Proof. intros Hp. destruct text; cbn [like]; by rewrite Hp. Qed.

(** X30: LIKE, and with it the [q] search of [list_products], ignores
    ASCII case on both sides: folding the capitals of the pattern and of
    the text does not change whether they match. *)
Theorem like_ignores_case pat : forall text,
  like (lower_string pat) (lower_string text) = like pat text.
Proof.
  induction pat as [|p pat IH]; intros text; [by destruct text|].
  cbn [lower_string]. destruct (Ascii.eqb p "%") eqn:Hp.
  - apply Ascii.eqb_eq in Hp as ->.
    change (lower "%") with "%"%char.
    induction text as [|c t IHt].
    + cbn [lower_string].
      rewrite (like_percent_unfold (lower_string pat) ""),
        (like_percent_unfold pat "").
      by rewrite <- (IH "").
    + cbn [lower_string].
      rewrite (like_percent_unfold (lower_string pat)
                 (String (lower c) (lower_string t))),
        (like_percent_unfold pat (String c t)).
      rewrite IHt. by rewrite <- (IH (String c t)).
  - rewrite !like_char_unfold by (by rewrite ?lower_percent).
    destruct text as [|c t]; [done|]. cbn [lower_string].
    by rewrite lower_underscore, !lower_lower, IH.
Qed.

(** ** The extras at sample inputs *)


Lemma duplicate_sku_rejected_witness :
  create_product Sample.widget Sample.db_widget =
    (Raise (HTTPException 400 "SKU already exists"), Sample.db_widget).
Proof.
  apply (duplicate_sku_rejected Sample.widget Sample.db_widget 1
           Sample.widget_row).
  - reflexivity.
  - reflexivity.
Defined.

Lemma sku_stays_unique_witness : sku_unique Sample.db_orphan.
Proof.
  apply (sku_stays_unique Sample.db_orphan).
  eexists. reflexivity.
Defined.

Lemma duplicate_category_rejected_witness :
  create_category Fixture.tools Fixture.db_tools =
    (Raise (HTTPException 400 "Category name already exists"),
     Fixture.db_tools).
Proof.
  apply (duplicate_category_rejected Fixture.tools Fixture.db_tools 1
           Fixture.tools).
  - reflexivity.
  - reflexivity.
Defined.

Lemma category_names_stay_unique_witness :
  category_names_unique
    (run [(0, POST_categories Fixture.tools);
          (1, POST_categories Fixture.tools)] init_db).
Proof.
  apply (category_names_stay_unique
           (run [(0, POST_categories Fixture.tools);
                 (1, POST_categories Fixture.tools)] init_db)).
  eexists. reflexivity.
Defined.


Lemma missing_product_is_404_witness :
  get_product 7 init_db = Raise (HTTPException 404 "Product not found") /\
  update_product 7 (Sample.set_stock 1) init_db =
    (Raise (HTTPException 404 "Product not found"), init_db) /\
  delete_product 7 init_db =
    (Raise (HTTPException 404 "Product not found"), init_db) /\
  create_movement 1000 (MovementCreate.mk 7 1 "purchase" None) init_db =
    (Raise (HTTPException 404 "Product not found"), init_db).
Proof.
  apply (missing_product_is_404 1000 7 init_db (Sample.set_stock 1)
           "purchase" 1 None).
  reflexivity.
Defined.

Lemma create_then_get_witness :
  exists id db',
    let r :=
      ProductRead.mk id "W-1" "widget" None (5 # 1)%Q (3 # 1)%Q 10 4 true
        None None in
    create_product Sample.widget init_db = (Ok r, db') /\
    0 < id /\
    products init_db !! id = None /\
    get_product id db' = Ok r /\
    (forall k, k <> id -> products db' !! k = products init_db !! k).
Proof.
  apply (create_then_get Sample.widget init_db).
  intros k p Hk. cbn in Hk. by rewrite lookup_empty in Hk.
Defined.

Lemma delete_then_gone_witness :
  get_product 1 (delete_product 1 Sample.db_sold).2 =
    Raise (HTTPException 404 "Product not found") /\
  delete_product 1 (delete_product 1 Sample.db_sold).2 =
    (Raise (HTTPException 404 "Product not found"),
     (delete_product 1 Sample.db_sold).2).
Proof.
  apply (delete_then_gone 1 Sample.db_sold "deleted").
  reflexivity.
Defined.

Lemma product_ids_never_reused_witness :
  1 < ProductRead.id (product_read (2, product_values Sample.bolt)).
Proof.
  apply (product_ids_never_reused Fixture.widget_history
           Fixture.later_history 1 Sample.widget_row Sample.bolt
           (product_read (2, product_values Sample.bolt))
           (create_product Sample.bolt
              (run Fixture.later_history
                 (run Fixture.widget_history init_db))).2).
  - reflexivity.
  - reflexivity.
Defined.

Lemma new_product_has_no_movements_witness :
  list_movements 5000 (Some 3) None
    (create_product Sample.widget Sample.db_orphan).2 = [].
Proof.
  apply (new_product_has_no_movements 5000 None Sample.widget
           Sample.db_orphan
           (product_read (3, Sample.widget_row))
           (create_product Sample.widget Sample.db_orphan).2).
  - eexists. reflexivity.
  - reflexivity.
Defined.
